(** * Developer-tools research agent: decision loop and action handlers

    Shallow embedding of [src/src/models.py], [src/src/workflow.py] (the
    second workflow, [workflow-googleaistudio.py], differs only in the
    model client it talks to) and the prompt loop of [src/main.py].

    The agent is a single-threaded loop that asks a language model for one
    decision, runs the matching handler, and mutates one [AgentState].  The
    collaborators that live outside the repository's code (the model client,
    the search/scrape service, the console and the clock) are oracles: each
    answers from the interaction trace so far and its arguments, so any
    scripted behaviour of the outside world is an instance.  A call to a
    collaborator returns, raises an [Exception], or is left by an
    exception outside [Exception] ([KeyboardInterrupt], [SystemExit]),
    which is taken to arise only there, where the program blocks; the
    clock only returns.  Every call is appended to the trace.  Console
    output ([print]) is not modelled. *)

From Stdlib Require Import String Ascii List ZArith Bool Arith Lia.
From Stdlib Require Import DecimalString.
Import ListNotations.
Open Scope string_scope.
Open Scope list_scope.

Set Implicit Arguments.

(* ================================================================== *)
(** ** Python strings *)

Module PyStr.

(** One character per [ascii]: the strings of the model are the Python
    strings whose code points are all below 256, indexed by code point as
    the source does. *)

Definition nl : string := String (ascii_of_nat 10) EmptyString.

(** [sep.join(xs)] *)
Fixpoint join (sep : string) (xs : list string) : string :=
  match xs with
  | [] => ""
  | [x] => x
  | x :: rest => (x ++ sep ++ join sep rest)%string
  end.

(** [str(n)] for a non-negative integer. *)
Definition of_nat (n : nat) : string :=
  NilEmpty.string_of_uint (Nat.to_uint n).

(** The code points below 256 that [str.strip()] removes, that is those
    on which [str.isspace()] holds: tab to carriage return, the four
    separators, the space, next line (133) and no-break space (160). *)
Definition is_space (c : ascii) : bool :=
  let n := nat_of_ascii c in
  (Nat.eqb n 32 || (Nat.leb 9 n && Nat.leb n 13)
   || (Nat.leb 28 n && Nat.leb n 31)
   || Nat.eqb n 133 || Nat.eqb n 160)%bool.

Fixpoint lstrip (s : string) : string :=
  match s with
  | EmptyString => EmptyString
  | String c rest => if is_space c then lstrip rest else s
  end.

Fixpoint rstrip (s : string) : string :=
  match s with
  | EmptyString => EmptyString
  | String c rest =>
      match rstrip rest with
      | EmptyString => if is_space c then EmptyString else String c EmptyString
      | r => String c r
      end
  end.

Definition strip (s : string) : string := rstrip (lstrip s).

(** [str.lower()] on one code point below 256: the letters A to Z and
    the upper-case letters of Latin-1 (192 to 222, the multiplication sign
    215 apart) move up by 32; every other code point stays. *)
Definition lower_char (c : ascii) : ascii :=
  let n := nat_of_ascii c in
  if ((Nat.leb 65 n && Nat.leb n 90)
      || (Nat.leb 192 n && Nat.leb n 222 && negb (Nat.eqb n 215)))%bool
  then ascii_of_nat (n + 32) else c.

Fixpoint lower (s : string) : string :=
  match s with
  | EmptyString => EmptyString
  | String c rest => String (lower_char c) (lower rest)
  end.

(** [s.split("\n")]: always at least one piece. *)
Fixpoint split_lines_aux (cur : string) (s : string) : list string :=
  match s with
  | EmptyString => [cur]
  | String c rest =>
      if Ascii.eqb c (ascii_of_nat 10)
      then cur :: split_lines_aux "" rest
      else split_lines_aux (cur ++ String c EmptyString)%string rest
  end.

Definition split_lines (s : string) : list string := split_lines_aux "" s.

(** [s[:n]] *)
Definition prefix (n : nat) (s : string) : string := substring 0 n s.

(** Truthiness of a string: non-empty. *)
Definition truthy (s : string) : bool :=
  match s with EmptyString => false | _ => true end.

(** Truthiness of an [Optional[str]]. *)
Definition opt_truthy (o : option string) : bool :=
  match o with Some s => truthy s | None => false end.

End PyStr.

(* ================================================================== *)
(** ** models.py *)

Inductive Role := user | assistant | tool.

(** [Message]; [tool_calls] is never set by the workflow and is left out. *)
Record Message := mkMessage {
  role : Role;
  content : string;
  timestamp : nat
}.

Record CompanyAnalysis := mkCompanyAnalysis {
  ca_pricing_model : string;
  ca_is_open_source : option bool;
  ca_tech_stack : list string;
  ca_description : string;
  ca_api_available : option bool;
  ca_language_support : list string;
  ca_integration_capabilities : list string
}.

Record CompanyInfo := mkCompanyInfo {
  name : string;
  description : string;
  website : string;
  pricing_model : option string;
  is_open_source : option bool;
  tech_stack : list string;
  competitors : list string;
  api_available : option bool;
  language_support : list string;
  integration_capabilities : list string;
  developer_experience_rating : option string
}.

Record SearchToolsCall := mkSearchToolsCall {
  query : string;
  num_results : Z;
  st_reasoning : string
}.

Record ResearchCompanyCall := mkResearchCompanyCall {
  company_names : list string;
  rc_reasoning : string
}.

Record AnalyzeCompaniesCall := mkAnalyzeCompaniesCall { ac_reasoning : string }.

Record EndConversationCall := mkEndConversationCall { ec_reasoning : string }.

(** The [Literal] of [AgentDecision.decision_type]: validation admits
    exactly these six values. *)
Inductive DecisionType :=
| respond | ask_question | search_tools | research_company
| analyze_companies | end_.

(** [AgentDecision]: every payload is optional, whatever the type says. *)
Record AgentDecision := mkAgentDecision {
  decision_type : DecisionType;
  message : option string;
  d_search_tools : option SearchToolsCall;
  d_research_company : option ResearchCompanyCall;
  d_analyze_companies : option AnalyzeCompaniesCall;
  d_end : option EndConversationCall
}.

Record AgentState := mkAgentState {
  conversation_history : list Message;
  current_query : option string;
  extracted_tools : list string;
  researched_companies : list CompanyInfo;
  pending_action : option string;
  awaiting_user_input : bool;
  analysis : option string;
  conversation_complete : bool
}.

(** Field assignments on the one mutable state object. *)

Definition set_history (h : list Message) (s : AgentState) : AgentState :=
  mkAgentState h (current_query s) (extracted_tools s)
    (researched_companies s) (pending_action s) (awaiting_user_input s)
    (analysis s) (conversation_complete s).

Definition set_extracted (t : list string) (s : AgentState) : AgentState :=
  mkAgentState (conversation_history s) (current_query s) t
    (researched_companies s) (pending_action s) (awaiting_user_input s)
    (analysis s) (conversation_complete s).

Definition set_researched (r : list CompanyInfo) (s : AgentState)
  : AgentState :=
  mkAgentState (conversation_history s) (current_query s) (extracted_tools s)
    r (pending_action s) (awaiting_user_input s)
    (analysis s) (conversation_complete s).

Definition set_awaiting (b : bool) (s : AgentState) : AgentState :=
  mkAgentState (conversation_history s) (current_query s) (extracted_tools s)
    (researched_companies s) (pending_action s) b
    (analysis s) (conversation_complete s).

Definition set_analysis (a : option string) (s : AgentState) : AgentState :=
  mkAgentState (conversation_history s) (current_query s) (extracted_tools s)
    (researched_companies s) (pending_action s) (awaiting_user_input s)
    a (conversation_complete s).

Definition set_complete (b : bool) (s : AgentState) : AgentState :=
  mkAgentState (conversation_history s) (current_query s) (extracted_tools s)
    (researched_companies s) (pending_action s) (awaiting_user_input s)
    (analysis s) b.

(** [state.conversation_history.append(m)] *)
Definition append_message (m : Message) (s : AgentState) : AgentState :=
  set_history (conversation_history s ++ [m]) s.

(* ================================================================== *)
(** ** The outside world *)

(** Exceptions of class [Exception], the ones an [except Exception]
    catches: the failed [assert] of a handler, the attribute missing on
    [None], the [ValidationError] of a [Message] whose content is not a
    string, and whatever a collaborator raises. *)
Inductive PyExc :=
| AssertionError (msg : string)
| AttributeError (msg : string)
| ValidationError (msg : string)
| ExternalError (msg : string).

(** Exceptions outside [Exception], which no [except Exception] catches:
    the interrupt key pressed, or the interpreter asked to exit, while a
    call to a collaborator blocks. *)
Inductive PyBaseExc := KeyboardInterrupt | SystemExit.

(** How a call ends: it returns, it raises an [Exception], or it is left
    by an exception outside [Exception]. *)
Inductive Result (A : Type) :=
| Ok (a : A)
| Raise (e : PyExc)
| Interrupt (b : PyBaseExc).
Arguments Raise {A} e.
Arguments Interrupt {A} b.

(** Messages handed to the model client. *)
Inductive ChatRole := system_role | user_role | assistant_role.

Record ChatMessage := mkChat {
  chat_role : ChatRole;
  chat_content : string
}.

(** What the search/scrape service hands back.  A web result exposes its
    URL directly or under [metadata]; either may be missing. *)
Record Metadata := mkMetadata { md_url : option string }.

Record WebResult := mkWebResult {
  wr_url : option string;
  wr_metadata : option Metadata
}.

Record SearchData := mkSearchData { web : option (list WebResult) }.

Record ScrapeData := mkScrapeData { markdown : option string }.

(** One completed call to a collaborator, with what it answered.
    [EvDecision] is the structured model call of a decision step together
    with the decoding of its answer into an [AgentDecision]; [EvAnalysis]
    likewise for [CompanyAnalysis]; [EvCompletion] is a free-text model
    call, which answers the [Optional[str]] found at
    [completion.choices[0].message.content].  A search answers [None]
    when it hands back a falsy object that carries no [web] attribute. *)
Inductive Event :=
| EvDecision (msgs : list ChatMessage) (r : Result AgentDecision)
| EvAnalysis (msgs : list ChatMessage) (r : Result CompanyAnalysis)
| EvCompletion (msgs : list ChatMessage) (r : Result (option string))
| EvSearch (q : string) (n : Z) (r : Result (option SearchData))
| EvScrape (url : string) (r : Result (option ScrapeData))
| EvInput (r : Result string).

Definition Trace := list Event.

Definition is_model_call (e : Event) : bool :=
  match e with
  | EvDecision _ _ | EvAnalysis _ _ | EvCompletion _ _ => true
  | _ => false
  end.

(** The collaborators.  Each oracle sees the trace so far. *)
Record Services := mkServices {
  llm_decision : Trace -> list ChatMessage -> Result AgentDecision;
  llm_analysis : Trace -> list ChatMessage -> Result CompanyAnalysis;
  llm_completion : Trace -> list ChatMessage -> Result (option string);
  search_companies : Trace -> string -> Z -> Result (option SearchData);
  scrape_company_pages : Trace -> string -> Result (option ScrapeData);
  console_input : Trace -> Result string;
  now : Trace -> nat
}.

(** [prompts.py]: the texts are opaque to everything proved here. *)
Record DeveloperToolsPrompts := mkPrompts {
  AGENT_SYSTEM_PROMPT : string;
  TOOL_EXTRACTION_SYSTEM : string;
  tool_extraction_user : string -> string -> string;
  TOOL_ANALYSIS_SYSTEM : string;
  tool_analysis_user : string -> string -> string;
  RECOMMENDATIONS_SYSTEM : string;
  recommendations_user : option string -> string -> string
}.

(** [self]: what an [AgentWorkflow] instance holds, that is its prompts
    and its collaborators, together with [CompanyInfo.json()], the
    serialiser of the model library. *)
Record AgentWorkflow := mkAgentWorkflow {
  prompts : DeveloperToolsPrompts;
  company_json : CompanyInfo -> string;
  services : Services
}.

(* ================================================================== *)
(** ** Effects: a trace-threading error monad *)

Definition M (A : Type) : Type := Trace -> Result A * Trace.

Definition ret {A} (a : A) : M A := fun tr => (Ok a, tr).

Definition raise {A} (e : PyExc) : M A := fun tr => (Raise e, tr).

Definition bind {A B} (m : M A) (k : A -> M B) : M B :=
  fun tr =>
    match m tr with
    | (Ok a, tr1) => k a tr1
    | (Raise e, tr1) => (Raise e, tr1)
    | (Interrupt b, tr1) => (Interrupt b, tr1)
    end.

(** [try: m  except Exception: h]; what is not an [Exception] passes. *)
Definition try_except {A} (m : M A) (h : PyExc -> M A) : M A :=
  fun tr =>
    match m tr with
    | (Ok a, tr1) => (Ok a, tr1)
    | (Raise e, tr1) => h e tr1
    | (Interrupt b, tr1) => (Interrupt b, tr1)
    end.

Declare Scope monad_scope.
Delimit Scope monad_scope with monad.
Notation "x <- m ;; k" := (bind m (fun x => k))
  (at level 61, m at next level, right associativity) : monad_scope.
Open Scope monad_scope.

(* ================================================================== *)
(** ** workflow.py *)

Section AgentWorkflow.

Variable self : AgentWorkflow.

(** *** Calls to the collaborators *)

Definition call_decision (msgs : list ChatMessage) : M AgentDecision :=
  fun tr =>
    let r := llm_decision (services self) tr msgs in
    (r, tr ++ [EvDecision msgs r]).

Definition call_analysis (msgs : list ChatMessage) : M CompanyAnalysis :=
  fun tr =>
    let r := llm_analysis (services self) tr msgs in
    (r, tr ++ [EvAnalysis msgs r]).

Definition call_completion (msgs : list ChatMessage) : M (option string) :=
  fun tr =>
    let r := llm_completion (services self) tr msgs in
    (r, tr ++ [EvCompletion msgs r]).

Definition call_search (q : string) (n : Z) : M (option SearchData) :=
  fun tr =>
    let r := search_companies (services self) tr q n in
    (r, tr ++ [EvSearch q n r]).

Definition call_scrape (url : string) : M (option ScrapeData) :=
  fun tr =>
    let r := scrape_company_pages (services self) tr url in
    (r, tr ++ [EvScrape url r]).

Definition call_input : M string :=
  fun tr =>
    let r := console_input (services self) tr in
    (r, tr ++ [EvInput r]).

(** *** Message building *)

Definition _build_context_summary (state : AgentState) : string :=
  let summary0 : list string := [] in
  let summary1 :=
    match extracted_tools state with
    | [] => summary0
    | _ =>
        summary0 ++
        [("Extracted Tools: "
            ++ PyStr.join ", " (firstn 5 (extracted_tools state))
            ++ " " ++ PyStr.nl
            ++ "→ Next step: Research these tools using "
            ++ "'research_company'")%string]
    end in
  let summary2 :=
    match researched_companies state with
    | [] => summary1
    | _ =>
        summary1 ++
        [("Researched Companies: "
            ++ PyStr.join ", " (map name (researched_companies state))
            ++ " " ++ PyStr.nl
            ++ "→ Next step: "
            ++ (if Nat.leb 2 (length (researched_companies state))
                then "Analyze if enough data"
                else "Research more companies"))%string]
    end in
  let summary3 :=
    if PyStr.opt_truthy (analysis state)
    then summary2 ++ ["Analysis Complete: Yes"]
    else summary2 in
  match summary3 with
  | [] => "No previous actions taken"
  | _ => PyStr.join PyStr.nl summary3
  end.

(** The [for msg in state.conversation_history] loop, one [append] per
    turn. *)
Definition append_turn (messages : list ChatMessage) (msg : Message)
  : list ChatMessage :=
  match role msg with
  | user => messages ++ [mkChat user_role (content msg)]
  | assistant => messages ++ [mkChat assistant_role (content msg)]
  | tool =>
      messages ++ [mkChat system_role ("[Tool Result] " ++ content msg)%string]
  end.

Definition context_message (state : AgentState) : ChatMessage :=
  mkChat system_role
    ("Current Context:" ++ PyStr.nl ++ _build_context_summary state)%string.

Definition _build_llm_messages (state : AgentState) : list ChatMessage :=
  let messages := [mkChat system_role (AGENT_SYSTEM_PROMPT (prompts self))] in
  let messages := fold_left append_turn (conversation_history state) messages in
  messages ++ [context_message state].

(** *** Tools *)

(** The URL of a web result: the direct attribute, else the one under
    [metadata] when there is a [metadata]. *)
Definition result_url (result : WebResult) : option string :=
  let url := wr_url result in
  if negb (PyStr.opt_truthy url) then
    match wr_metadata result with
    | Some md => md_url md
    | None => url
    end
  else url.

(** The query sent to the search service by [_tool_search_tools]. *)
Definition article_query (q : string) : string :=
  (q ++ " tools comparision best alternatives")%string.

(** The [for result in search_results.web or []] loop. *)
Fixpoint collect_content (results : list WebResult) (all_content : string)
  : M string :=
  match results with
  | [] => ret all_content
  | result :: rest =>
      match result_url result with
      | Some (String c u) =>
          scraped <- call_scrape (String c u) ;;
          match scraped with
          | Some (mkScrapeData (Some (String c' md))) =>
              collect_content rest
                (all_content ++ PyStr.prefix 1500 (String c' md)
                   ++ PyStr.nl ++ PyStr.nl)%string
          | _ => collect_content rest all_content
          end
      | _ => collect_content rest all_content
      end
  end.

(** The list comprehension over the model's answer, cut to five. *)
Definition parse_tool_names (response_content : string) : list string :=
  let tool_names :=
    filter PyStr.truthy
      (map PyStr.strip (PyStr.split_lines (PyStr.strip response_content))) in
  firstn 5 tool_names.

Definition extraction_messages (q all_content : string) : list ChatMessage :=
  [mkChat system_role (TOOL_EXTRACTION_SYSTEM (prompts self));
   mkChat user_role (tool_extraction_user (prompts self) q all_content)].

Definition _tool_search_tools (q : string) (n : Z) : M (list string) :=
  search_results <- call_search (article_query q) n ;;
  match search_results with
  | None => raise (AttributeError "web")
  | Some data =>
      all_content <-
        collect_content (match web data with Some l => l | None => [] end) "" ;;
      try_except
        (response_content <-
           call_completion (extraction_messages q all_content) ;;
         match response_content with
         | None => raise (AttributeError "strip")
         | Some text => ret (parse_tool_names text)
         end)
        (fun _ => ret [])
  end.

Definition default_analysis : CompanyAnalysis :=
  mkCompanyAnalysis "Unknown" None [] "Analysis failed" None [] [].

Definition _analyze_company_content (company_name content_ : string)
  : M CompanyAnalysis :=
  let messages :=
    [mkChat system_role (TOOL_ANALYSIS_SYSTEM (prompts self));
     mkChat user_role
       (tool_analysis_user (prompts self) company_name content_)] in
  try_except (call_analysis messages) (fun _ => ret default_analysis).

Definition populate (company : CompanyInfo) (a : CompanyAnalysis)
  : CompanyInfo :=
  mkCompanyInfo (name company) (ca_description a) (website company)
    (Some (ca_pricing_model a)) (ca_is_open_source a) (ca_tech_stack a)
    (competitors company) (ca_api_available a) (ca_language_support a)
    (ca_integration_capabilities a) (developer_experience_rating company).

Definition _tool_research_company (company_name : string)
  : M (option CompanyInfo) :=
  tool_search_results <-
    call_search (company_name ++ " official site")%string 1%Z ;;
  match tool_search_results with
  | Some (mkSearchData (Some (result :: _))) =>
      match result_url result with
      | Some (String c u) =>
          let url := String c u in
          let company :=
            mkCompanyInfo company_name "" url None None [] [] None [] [] None in
          scraped <- call_scrape url ;;
          match scraped with
          | Some (mkScrapeData (Some (String c' md))) =>
              a <- _analyze_company_content company_name (String c' md) ;;
              ret (Some (populate company a))
          | _ => ret (Some company)
          end
      | _ => ret None
      end
  | _ => ret None
  end.

Definition recommendation_messages (state : AgentState) : list ChatMessage :=
  let company_data :=
    PyStr.join ", " (map (company_json self) (researched_companies state)) in
  [mkChat system_role (RECOMMENDATIONS_SYSTEM (prompts self));
   mkChat user_role
     (recommendations_user (prompts self) (current_query state) company_data)].

(** The annotation of the source says [str]; what is returned on the
    second path is the [Optional[str]] content of the model's message. *)
Definition _tool_analyze_companies (state : AgentState) : M (option string) :=
  match researched_companies state with
  | [] => ret (Some "No companies researched yet.")
  | _ => call_completion (recommendation_messages state)
  end.

(** *** Agent decision *)

(** The [for company_name in company_names] loop of the research branch:
    the state is mutated as the loop goes, so a failure part-way leaves
    the records appended so far. *)
Fixpoint research_loop (names : list string) (state : AgentState)
  (researched_count : nat) (tr : Trace) : Result nat * AgentState * Trace :=
  match names with
  | [] => (Ok researched_count, state, tr)
  | company_name :: rest =>
      match _tool_research_company company_name tr with
      | (Raise e, tr1) => (Raise e, state, tr1)
      | (Interrupt b, tr1) => (Interrupt b, state, tr1)
      | (Ok None, tr1) => research_loop rest state researched_count tr1
      | (Ok (Some company), tr1) =>
          research_loop rest
            (set_researched (researched_companies state ++ [company]) state)
            (S researched_count) tr1
      end
  end.

Definition research_summary (researched_count : nat) (names : list string)
  : string :=
  ("Researched " ++ PyStr.of_nat researched_count ++ "/"
     ++ PyStr.of_nat (length names) ++ " companies: "
     ++ PyStr.join ", " names)%string.

(** The [if / elif] chain on [decision.decision_type].  The final [else]
    of the source cannot be reached with a validated decision.  In the
    analyze branch the field and the tool turn are written before the
    assistant turn is built, and building a [Message] whose content is
    [None] raises. *)
Definition dispatch (decision : AgentDecision) (state : AgentState)
  (tr : Trace) : Result unit * AgentState * Trace :=
  match decision_type decision with
  | respond | ask_question =>
      match message decision with
      | None => (Raise (AssertionError "Message missing"), state, tr)
      | Some m =>
          let state1 :=
            append_message
              (mkMessage assistant m (now (services self) tr)) state in
          (Ok tt, set_awaiting true state1, tr)
      end
  | search_tools =>
      match d_search_tools decision with
      | None => (Raise (AssertionError "search_tools args missing"), state, tr)
      | Some args =>
          match _tool_search_tools (query args) (num_results args) tr with
          | (Raise e, tr1) => (Raise e, state, tr1)
          | (Interrupt b, tr1) => (Interrupt b, state, tr1)
          | (Ok tools, tr1) =>
              let state1 :=
                set_extracted (extracted_tools state ++ tools) state in
              (Ok tt,
               append_message
                 (mkMessage tool
                    ("Found tools: " ++ PyStr.join ", " tools)%string
                    (now (services self) tr1)) state1,
               tr1)
          end
      end
  | research_company =>
      match d_research_company decision with
      | None =>
          (Raise (AssertionError "research_company args missing"), state, tr)
      | Some args =>
          match research_loop (company_names args) state 0 tr with
          | (Raise e, state1, tr1) => (Raise e, state1, tr1)
          | (Interrupt b, state1, tr1) => (Interrupt b, state1, tr1)
          | (Ok researched_count, state1, tr1) =>
              (Ok tt,
               append_message
                 (mkMessage tool
                    (research_summary researched_count (company_names args))
                    (now (services self) tr1)) state1,
               tr1)
          end
      end
  | analyze_companies =>
      match d_analyze_companies decision with
      | None =>
          (Raise (AssertionError "analyze_companies args missing"), state, tr)
      | Some _ =>
          match _tool_analyze_companies state tr with
          | (Raise e, tr1) => (Raise e, state, tr1)
          | (Interrupt b, tr1) => (Interrupt b, state, tr1)
          | (Ok analysis_, tr1) =>
              let state1 := set_analysis analysis_ state in
              let state2 :=
                append_message
                  (mkMessage tool "Analysis complete" (now (services self) tr1))
                  state1 in
              match analysis_ with
              | None =>
                  (Raise (ValidationError "content"), state2, tr1)
              | Some text =>
                  let state3 :=
                    append_message
                      (mkMessage assistant text (now (services self) tr1))
                      state2 in
                  (Ok tt, set_awaiting true state3, tr1)
              end
          end
      end
  | end_ =>
      match d_end decision with
      | None => (Raise (AssertionError "end args missing"), state, tr)
      | Some _ => (Ok tt, set_complete true state, tr)
      end
  end.

(** The body of the [try] block: the structured model call, its decoding,
    and the dispatch.  It hands back the state as mutated so far. *)
Definition try_body (state : AgentState) (tr : Trace)
  : Result unit * AgentState * Trace :=
  let messages := _build_llm_messages state in
  match call_decision messages tr with
  | (Raise e, tr1) => (Raise e, state, tr1)
  | (Interrupt b, tr1) => (Interrupt b, state, tr1)
  | (Ok decision, tr1) => dispatch decision state tr1
  end.

Definition apology : string := "I hit an internal error. Please rephrase.".

(** The [except Exception] block. *)
Definition on_error (state : AgentState) (tr : Trace) : AgentState :=
  set_awaiting true
    (append_message
       (mkMessage assistant apology (now (services self) tr)) state).

(** [agent_decision_step] works on the one state object in place and
    hands the same object back.  [agent_decision_step state tr] is that
    object, and the trace, at the moment control leaves the step;
    [step_interrupted state tr] tells how it leaves: [None] when the step
    returns, [Some b] when an exception outside [Exception], which the
    [except Exception] block does not catch, goes on to the caller. *)
Definition agent_decision_step (state : AgentState) (tr : Trace)
  : AgentState * Trace :=
  match try_body state tr with
  | (Ok _, state1, tr1) => (state1, tr1)
  | (Raise _, state1, tr1) => (on_error state1 tr1, tr1)
  | (Interrupt _, state1, tr1) => (state1, tr1)
  end.

Definition step_interrupted (state : AgentState) (tr : Trace)
  : option PyBaseExc :=
  match try_body state tr with
  | (Interrupt b, _, _) => Some b
  | _ => None
  end.

(** *** Main conversation loop *)

Definition is_exit_word (s : string) : bool :=
  (String.eqb s "exit" || String.eqb s "quit" || String.eqb s "bye")%bool.

Definition initial_state (initial_message : string) (tr : Trace)
  : AgentState :=
  mkAgentState [mkMessage user initial_message (now (services self) tr)]
    (Some initial_message) [] [] None false None false.

(** How a bounded run of the loop ends: the loop returned, an
    [Exception] left it, an exception outside [Exception] left it, or the
    bound on the number of iterations was reached first. *)
Inductive LoopEnd :=
| Returned (state : AgentState) (tr : Trace)
| Escaped (e : PyExc) (tr : Trace)
| Interrupted (b : PyBaseExc) (tr : Trace)
| OutOfFuel.

(** The [while not state.conversation_complete] loop. *)
Fixpoint conversation_loop (fuel : nat) (state : AgentState) (tr : Trace)
  : LoopEnd :=
  if conversation_complete state then Returned state tr
  else
    match fuel with
    | O => OutOfFuel
    | S fuel' =>
        let (state1, tr1) := agent_decision_step state tr in
        match step_interrupted state tr with
        | Some b => Interrupted b tr1
        | None =>
            if (awaiting_user_input state1
                && negb (conversation_complete state1))%bool
            then
              match call_input tr1 with
              | (Raise e, tr2) => Escaped e tr2
              | (Interrupt b, tr2) => Interrupted b tr2
              | (Ok line, tr2) =>
                  let user_input := PyStr.strip line in
                  if is_exit_word (PyStr.lower user_input)
                  then Returned (set_complete true state1) tr2
                  else
                    let state2 :=
                      append_message
                        (mkMessage user user_input (now (services self) tr2))
                        state1 in
                    conversation_loop fuel' (set_awaiting false state2) tr2
              end
            else conversation_loop fuel' state1 tr1
        end
    end.

Definition run_conversation (fuel : nat) (initial_message : string)
  (tr : Trace) : LoopEnd :=
  conversation_loop fuel (initial_state initial_message tr) tr.

(** *** Positions of a conversation

    Where a run of [run_conversation] stands, named by what happened
    last: nothing yet, a decision step whose handler completed, a
    decision step that took the [except] path, or a line of user text
    appended to the history.  The user's exit word only marks the
    conversation complete and keeps the position. *)

Inductive Position :=
| AtStart
| AfterAction (dt : DecisionType)
| AfterFailure
| AfterUserText.

(** The loop blocks on the console here. *)
Definition waits_for_user (p : Position) (state : AgentState) : bool :=
  match p with
  | AfterAction _ | AfterFailure =>
      (awaiting_user_input state && negb (conversation_complete state))%bool
  | AtStart | AfterUserText => false
  end.

(** The loop goes on to the next decision step from here, with no new
    user text in between. *)
Definition invokes_model (p : Position) (state : AgentState) : bool :=
  (negb (conversation_complete state) && negb (waits_for_user p state))%bool.

Inductive reach (initial_message : string) (tr0 : Trace)
  : Position -> AgentState -> Trace -> Prop :=
| reach_start :
    reach initial_message tr0 AtStart (initial_state initial_message tr0) tr0
| reach_action : forall p state tr decision tr1 state2 tr2,
    reach initial_message tr0 p state tr ->
    invokes_model p state = true ->
    call_decision (_build_llm_messages state) tr = (Ok decision, tr1) ->
    dispatch decision state tr1 = (Ok tt, state2, tr2) ->
    reach initial_message tr0 (AfterAction (decision_type decision)) state2 tr2
| reach_failure : forall p state tr e state1 tr1,
    reach initial_message tr0 p state tr ->
    invokes_model p state = true ->
    try_body state tr = (Raise e, state1, tr1) ->
    reach initial_message tr0 AfterFailure (on_error state1 tr1) tr1
| reach_user_text : forall p state tr line tr1,
    reach initial_message tr0 p state tr ->
    waits_for_user p state = true ->
    call_input tr = (Ok line, tr1) ->
    is_exit_word (PyStr.lower (PyStr.strip line)) = false ->
    reach initial_message tr0 AfterUserText
      (set_awaiting false
         (append_message
            (mkMessage user (PyStr.strip line) (now (services self) tr1))
            state))
      tr1
| reach_exit : forall p state tr line tr1,
    reach initial_message tr0 p state tr ->
    waits_for_user p state = true ->
    call_input tr = (Ok line, tr1) ->
    is_exit_word (PyStr.lower (PyStr.strip line)) = true ->
    reach initial_message tr0 p (set_complete true state) tr1.

End AgentWorkflow.

(* ================================================================== *)
(** ** Vocabulary of the properties *)

(** The role mapping of the model input, as the specification words it:
    user to user, assistant to assistant, a tool result to a system-level
    note that carries the prefix. *)
Definition spec_role_mapping (msg : Message) : ChatMessage :=
  match role msg with
  | user => mkChat user_role (content msg)
  | assistant => mkChat assistant_role (content msg)
  | tool => mkChat system_role ("[Tool Result] " ++ content msg)%string
  end.

(** The URL a search answer offers for research: that of its first web
    result, when there is one and it is a non-empty string. *)
Definition usable_url (answer : option SearchData) : option string :=
  match answer with
  | Some (mkSearchData (Some (result :: _))) =>
      match result_url result with
      | Some (String c u) => Some (String c u)
      | _ => None
      end
  | _ => None
  end.

(** The flag value that goes with a position. *)
Definition flag_at (p : Position) : bool :=
  match p with
  | AfterAction respond | AfterAction ask_question
  | AfterAction analyze_companies | AfterFailure => true
  | _ => false
  end.

(** The positions at which the flag is claimed to be allowed to be true:
    right after a respond, ask or analyze action, or at the start. *)
Definition claimed_true_position (p : Position) : bool :=
  match p with
  | AfterAction respond | AfterAction ask_question
  | AfterAction analyze_companies | AtStart => true
  | _ => false
  end.

(** A decision that carries the payload its type names. *)
Definition well_formed (d : AgentDecision) : bool :=
  match decision_type d with
  | respond | ask_question =>
      match message d with Some _ => true | None => false end
  | search_tools =>
      match d_search_tools d with Some _ => true | None => false end
  | research_company =>
      match d_research_company d with Some _ => true | None => false end
  | analyze_companies =>
      match d_analyze_companies d with Some _ => true | None => false end
  | end_ => match d_end d with Some _ => true | None => false end
  end.

(** Every field but the researched list is the same, and that list has
    grown by [extra] at its end. *)
Definition kept_up_to_research (s s1 : AgentState) (extra : list CompanyInfo)
  : Prop :=
  conversation_history s1 = conversation_history s
  /\ current_query s1 = current_query s
  /\ extracted_tools s1 = extracted_tools s
  /\ researched_companies s1 = researched_companies s ++ extra
  /\ pending_action s1 = pending_action s
  /\ awaiting_user_input s1 = awaiting_user_input s
  /\ analysis s1 = analysis s
  /\ conversation_complete s1 = conversation_complete s.



(** The reading of the research example under which a usable URL for "A"
    and none for "B" are all it takes. *)
Definition one_of_two_by_search_alone (self : AgentWorkflow)
  (s : AgentState) (tr : Trace) : Prop :=
  forall d reasoning url,
    llm_decision (services self) tr (_build_llm_messages self s) = Ok d ->
    decision_type d = research_company ->
    d_research_company d = Some (mkResearchCompanyCall ["A"; "B"] reasoning) ->
    (forall tr', exists answer,
        search_companies (services self) tr' "A official site" 1%Z = Ok answer
        /\ usable_url answer = Some url) ->
    (forall tr', exists answer,
        search_companies (services self) tr' "B official site" 1%Z = Ok answer
        /\ usable_url answer = None) ->
    exists company t,
      researched_companies (fst (agent_decision_step self s tr))
      = researched_companies s ++ [company]
      /\ name company = "A"
      /\ conversation_history (fst (agent_decision_step self s tr))
         = conversation_history s
             ++ [mkMessage tool "Researched 1/2 companies: A, B" t].

(** The reading of the flag rule under which the type of the decision
    alone settles the flag after the step. *)
Definition flag_settled_by_decision_type (self : AgentWorkflow)
  (s : AgentState) (tr : Trace) : Prop :=
  forall d,
    llm_decision (services self) tr (_build_llm_messages self s) = Ok d ->
    match decision_type d with
    | respond | ask_question | analyze_companies =>
        awaiting_user_input
          (fst (agent_decision_step self s tr)) = true
    | search_tools | research_company | end_ =>
        awaiting_user_input s = false ->
        awaiting_user_input
          (fst (agent_decision_step self s tr)) = false
        /\ (decision_type d = end_ ->
            conversation_complete
              (fst (agent_decision_step self s tr)) = true)
    end.

(** The reading of the flag invariant under which the flag is true at no
    position other than the claimed ones. *)
Definition flag_true_only_where_claimed (self : AgentWorkflow)
  (initial_message : string) (tr0 : Trace) : Prop :=
  forall p s tr,
    reach self initial_message tr0 p s tr ->
    awaiting_user_input s = true -> claimed_true_position p = true.

(* ================================================================== *)
(** ** Scripted worlds for the examples *)

Module Demo.

Definition texts : DeveloperToolsPrompts :=
  mkPrompts "system" "extract" (fun q c => (q ++ ": " ++ c)%string)
    "analyse" (fun n c => (n ++ ": " ++ c)%string)
    "recommend" (fun _ data => data).

Definition names_only (c : CompanyInfo) : string := name c.

Definition is_decision (e : Event) : bool :=
  match e with EvDecision _ _ => true | _ => false end.

Definition is_input (e : Event) : bool :=
  match e with EvInput _ => true | _ => false end.

(** The model follows a script of decisions; the other collaborators
    answer by query. *)
Definition scripted
  (script : list (Result AgentDecision))
  (search : string -> Result (option SearchData))
  (scrape : string -> Result (option ScrapeData))
  (completion : Result (option string))
  (lines : list string) : AgentWorkflow :=
  mkAgentWorkflow texts names_only
    (mkServices
       (fun tr _ =>
          nth (length (filter is_decision tr)) script
            (Raise (ExternalError "script exhausted")))
       (fun _ _ => Raise (ExternalError "no analysis"))
       (fun _ _ => completion)
       (fun _ q _ => search q)
       (fun _ url => scrape url)
       (fun tr => Ok (nth (length (filter is_input tr)) lines "exit"))
       (fun tr => length tr)).

Definition decide (dt : DecisionType) : AgentDecision :=
  mkAgentDecision dt None None None None None.

Definition one_result (url : string) : Result (option SearchData) :=
  Ok (Some (mkSearchData (Some [mkWebResult (Some url) None]))).

Definition no_result : Result (option SearchData) :=
  Ok (Some (mkSearchData (Some []))).

Definition page (text : string) : Result (option ScrapeData) :=
  Ok (Some (mkScrapeData (Some text))).

Definition empty_state : AgentState :=
  mkAgentState [] None [] [] None false None false.

Definition nothing_found (_ : string) : Result (option SearchData) :=
  no_result.

Definition any_page (_ : string) : Result (option ScrapeData) :=
  page "A is a tool".

(** The model call of every decision step fails. *)
Definition model_down : AgentWorkflow :=
  scripted [] nothing_found any_page (Ok (Some "")) [].

Definition research_A_B : AgentDecision :=
  mkAgentDecision research_company None None
    (Some (mkResearchCompanyCall ["A"; "B"] "compare the two")) None None.

(** "A" has a site; the search for anything else fails on the network. *)
Definition search_A_then_network_error (q : string)
  : Result (option SearchData) :=
  if String.eqb q "A official site" then one_result "https://a.example"
  else Raise (ExternalError "network").

Definition batch_breaks : AgentWorkflow :=
  scripted [Ok research_A_B] search_A_then_network_error any_page
    (Ok (Some "")) [].

(** "A" has a site; nothing is found for anything else. *)
Definition search_A_only (q : string) : Result (option SearchData) :=
  if String.eqb q "A official site" then one_result "https://a.example"
  else no_result.

Definition only_A_found : AgentWorkflow :=
  scripted [Ok research_A_B] search_A_only any_page (Ok (Some "")) [].

(** "A" has a site, but its page cannot be fetched. *)
Definition page_unreachable (_ : string) : Result (option ScrapeData) :=
  Raise (ExternalError "timeout").

Definition scrape_breaks : AgentWorkflow :=
  scripted [Ok research_A_B] search_A_only page_unreachable (Ok (Some "")) [].

Definition search_db : AgentDecision :=
  mkAgentDecision search_tools None
    (Some (mkSearchToolsCall "db" 3 "find candidates")) None None None.

Definition network_error (_ : string) : Result (option SearchData) :=
  Raise (ExternalError "network").

Definition search_breaks : AgentWorkflow :=
  scripted [Ok search_db] network_error any_page (Ok (Some "")) [].

Definition some_article (_ : string) : Result (option SearchData) :=
  one_result "https://blog.example/db".

Definition extraction_breaks : AgentWorkflow :=
  scripted [Ok search_db] some_article any_page
    (Raise (ExternalError "model")) [].

Definition say (m : string) : AgentDecision :=
  mkAgentDecision respond (Some m) None None None None.

Definition finish : AgentDecision :=
  mkAgentDecision end_ None None None None
    (Some (mkEndConversationCall "the user is done")).

Definition analyze : AgentDecision :=
  mkAgentDecision analyze_companies None None None
    (Some (mkAnalyzeCompaniesCall "compare")) None.

(** One reply, one line of user text, then the end. *)
Definition short_chat : AgentWorkflow :=
  scripted [Ok (say "Which language?"); Ok finish]
    nothing_found any_page (Ok (Some "")) ["Go"].

(** The model ends the conversation at once. *)
Definition ends_now : AgentWorkflow :=
  scripted [Ok finish] nothing_found any_page (Ok (Some "")) [].

(** The model asks for the end but sends no [end] call with it. *)
Definition ends_without_call : AgentWorkflow :=
  scripted [Ok (decide end_)] nothing_found any_page (Ok (Some "")) [].

Definition analyze_first : AgentWorkflow :=
  scripted [Ok analyze] nothing_found any_page (Ok (Some "")) [].

Definition three_turns : AgentState :=
  mkAgentState
    [mkMessage user "I need a db" 0;
     mkMessage tool "Found tools: X" 1;
     mkMessage assistant "Try X" 2]
    (Some "I need a db") ["X"] [] None true None false.

End Demo.

(* ================================================================== *)
(** ** Vocabulary of the further properties *)

(** [xs] is [ys] with some of its elements left out and the order kept. *)
Inductive subseq {A : Type} : list A -> list A -> Prop :=
| subseq_nil : subseq [] []
| subseq_skip : forall x xs ys, subseq xs ys -> subseq xs (x :: ys)
| subseq_take : forall x xs ys, subseq xs ys -> subseq (x :: xs) (x :: ys).

(** Every character of the string passes the test. *)
Fixpoint all_chars (p : ascii -> bool) (s : string) : bool :=
  match s with
  | EmptyString => true
  | String c rest => (p c && all_chars p rest)%bool
  end.

Definition is_newline (c : ascii) : bool := Ascii.eqb c (ascii_of_nat 10).

(** The string holds no line break. *)
Definition one_line (s : string) : bool :=
  all_chars (fun c => negb (is_newline c)) s.

(** Kinds of calls on a trace. *)
Definition is_decision_call (e : Event) : bool :=
  match e with EvDecision _ _ => true | _ => false end.

Definition is_analysis_call (e : Event) : bool :=
  match e with EvAnalysis _ _ => true | _ => false end.

Definition is_completion_call (e : Event) : bool :=
  match e with EvCompletion _ _ => true | _ => false end.

Definition is_search_call (e : Event) : bool :=
  match e with EvSearch _ _ _ => true | _ => false end.

Definition is_scrape_call (e : Event) : bool :=
  match e with EvScrape _ _ => true | _ => false end.

Definition is_input_call (e : Event) : bool :=
  match e with EvInput _ => true | _ => false end.

Definition count_calls (kind : Event -> bool) (tr : Trace) : nat :=
  length (filter kind tr).

(** The exception outside [Exception] that ended a call, if one did. *)
Definition interrupt_of {A : Type} (r : Result A) : option PyBaseExc :=
  match r with Interrupt b => Some b | _ => None end.

Definition call_interrupt (e : Event) : option PyBaseExc :=
  match e with
  | EvDecision _ r => interrupt_of r
  | EvAnalysis _ r => interrupt_of r
  | EvCompletion _ r => interrupt_of r
  | EvSearch _ _ r => interrupt_of r
  | EvScrape _ r => interrupt_of r
  | EvInput r => interrupt_of r
  end.

(** The web results of a search answer: [search_results.web or []]. *)
Definition web_results (data : SearchData) : list WebResult :=
  match web data with Some l => l | None => [] end.

(* ================================================================== *)
(** ** main.py *)

(** How a bounded run of [main] ends: it returned after an exit word, an
    [Exception] left it, an exception outside [Exception] left it, or a
    bound was reached first. *)
Inductive MainEnd :=
| Exited (tr : Trace)
| MainEscaped (e : PyExc) (tr : Trace)
| MainInterrupted (b : PyBaseExc) (tr : Trace)
| MainOutOfFuel.

(** The [while True] loop of [main].  [fuel] bounds the number of prompts
    and [conversation_fuel] the decision steps of each conversation.  The
    final states are collected in the order in which [main] receives them
    from [run_conversation] and goes on to print their summary. *)
Fixpoint main_loop (agent : AgentWorkflow) (fuel conversation_fuel : nat)
  (tr : Trace) (finals : list AgentState) : list AgentState * MainEnd :=
  match fuel with
  | O => (finals, MainOutOfFuel)
  | S fuel' =>
      match call_input agent tr with
      | (Raise e, tr1) => (finals, MainEscaped e tr1)
      | (Interrupt b, tr1) => (finals, MainInterrupted b tr1)
      | (Ok line, tr1) =>
          let query_ := PyStr.strip line in
          if is_exit_word (PyStr.lower query_) then (finals, Exited tr1)
          else if PyStr.truthy query_ then
            match run_conversation agent conversation_fuel query_ tr1 with
            | Returned final_state tr2 =>
                main_loop agent fuel' conversation_fuel tr2
                  (finals ++ [final_state])
            | Escaped e tr2 => (finals, MainEscaped e tr2)
            | Interrupted b tr2 => (finals, MainInterrupted b tr2)
            | OutOfFuel => (finals, MainOutOfFuel)
            end
          else main_loop agent fuel' conversation_fuel tr1 finals
      end
  end.

Definition main (agent : AgentWorkflow) (fuel conversation_fuel : nat)
  (tr : Trace) : list AgentState * MainEnd :=
  main_loop agent fuel conversation_fuel tr [].

(** [final_state] is what a conversation returned that [main], entered
    at [tr], started on a line read from the console: the line was read at
    [tr ++ before], is neither empty nor an exit word once stripped, and
    the conversation was started right after the read, on the stripped
    line. *)
Definition started_on_typed_line (agent : AgentWorkflow)
  (conversation_fuel : nat) (tr : Trace) (final_state : AgentState) : Prop :=
  exists before line tr_after,
    console_input (services agent) (tr ++ before) = Ok line
    /\ PyStr.strip line <> ""%string
    /\ is_exit_word (PyStr.lower (PyStr.strip line)) = false
    /\ run_conversation agent conversation_fuel (PyStr.strip line)
         (tr ++ before ++ [EvInput (Ok line)])
       = Returned final_state tr_after
    /\ conversation_complete final_state = true
    /\ pending_action final_state = None
    /\ current_query final_state = Some (PyStr.strip line)
    /\ exists later,
         conversation_history final_state
         = mkMessage user (PyStr.strip line)
             (now (services agent) (tr ++ before ++ [EvInput (Ok line)]))
           :: later.

(** More scripted worlds. *)
Module Scenes.

(** The no-break space and the next-line character, which
    [str.strip()] removes like a space. *)
Definition no_break_space : string := String (ascii_of_nat 160) EmptyString.

Definition next_line : string := String (ascii_of_nat 133) EmptyString.

(** The extraction answer lists six names, some padded, one of them with
    a no-break space, with a blank line among them. *)
Definition six_names : string :=
  ("Supabase" ++ PyStr.nl ++ " " ++ no_break_space ++ "PlanetScale "
     ++ PyStr.nl ++ PyStr.nl
     ++ "Railway" ++ PyStr.nl ++ "Appwrite" ++ PyStr.nl ++ "Nhost"
     ++ PyStr.nl ++ "Firebase")%string.

Definition finds_six : AgentWorkflow :=
  Demo.scripted [Ok Demo.search_db] Demo.some_article Demo.any_page
    (Ok (Some six_names)) [].

(** The console is closed: every read raises. *)
Definition console_closed : AgentWorkflow :=
  mkAgentWorkflow Demo.texts Demo.names_only
    (mkServices
       (fun _ _ => Ok (Demo.say "Which language?"))
       (fun _ _ => Raise (ExternalError "no analysis"))
       (fun _ _ => Ok (Some ""%string))
       (fun _ _ _ => Demo.no_result)
       (fun _ _ => Demo.page "A is a tool")
       (fun _ => Raise (ExternalError "EOF"))
       (fun tr => length tr)).

Definition company_A : CompanyInfo :=
  mkCompanyInfo "A" "a tool" "https://a.example" (Some "Free"%string)
    (Some true) [] [] None [] [] None.

Definition one_researched : AgentState :=
  mkAgentState [mkMessage user "compare" 0] (Some "compare"%string) ["A"]
    [company_A] None false None false.

(** The model asks for the analysis and then writes it. *)
Definition recommends : AgentWorkflow :=
  Demo.scripted [Ok Demo.analyze] Demo.nothing_found Demo.any_page
    (Ok (Some "Use A."%string)) [].

(** The model asks for the analysis and then answers with no content. *)
Definition no_recommendation : AgentWorkflow :=
  Demo.scripted [Ok Demo.analyze] Demo.nothing_found Demo.any_page
    (Ok None) [].

(** The interrupt key is pressed while the recommendation is awaited. *)
Definition interrupted_recommendation : AgentWorkflow :=
  Demo.scripted [Ok Demo.analyze] Demo.nothing_found Demo.any_page
    (Interrupt KeyboardInterrupt) [].

(** "A" has a site and a page; the interrupt key is pressed while the
    page is analysed. *)
Definition interrupted_analysis : AgentWorkflow :=
  mkAgentWorkflow Demo.texts Demo.names_only
    (mkServices
       (fun _ _ => Ok Demo.research_A_B)
       (fun _ _ => Interrupt KeyboardInterrupt)
       (fun _ _ => Ok (Some ""%string))
       (fun _ q _ => Demo.search_A_only q)
       (fun _ _ => Demo.page "A is a tool")
       (fun _ => Ok "exit"%string)
       (fun tr => length tr)).

(** The model ends every conversation at once; the user asks, sends an
    empty line, asks again, then leaves. *)
Definition two_questions : AgentWorkflow :=
  Demo.scripted [Ok Demo.finish; Ok Demo.finish] Demo.nothing_found
    Demo.any_page (Ok (Some ""%string)) [" a db "; ""; "a queue"; "Exit"].

(** The user leaves at once, the exit word typed in capitals between a
    no-break space and a next-line character. *)
Definition padded_exit : string :=
  (no_break_space ++ "EXIT" ++ next_line)%string.

Definition leaves_at_once : AgentWorkflow :=
  Demo.scripted [] Demo.nothing_found Demo.any_page (Ok (Some ""%string))
    [padded_exit].

Definition seven_tools : AgentState :=
  mkAgentState [] None ["a"; "b"; "c"; "d"; "e"; "f"; "g"] [] None false
    None false.

Definition six_tools : AgentState :=
  mkAgentState [mkMessage user "other" 3] (Some "other"%string)
    ["a"; "b"; "c"; "d"; "e"; "z"] [] None true (Some ""%string) false.

End Scenes.

(* ================================================================== *)
(** ** Properties *)

Section Properties.

Variable self : AgentWorkflow.

(** *** Message building *)

Lemma append_turn_mapping (messages : list ChatMessage) (msg : Message) :
  append_turn messages msg = messages ++ [spec_role_mapping msg].
Proof.
  unfold append_turn, spec_role_mapping.
  destruct (role msg); reflexivity.
Qed.

Lemma fold_append_turn (history : list Message) :
  forall messages,
    fold_left append_turn history messages
    = messages ++ map spec_role_mapping history.
Proof.
  induction history as [|msg history IH]; intros messages; simpl.
  - now rewrite app_nil_r.
  - rewrite IH, append_turn_mapping, <- app_assoc. reflexivity.
Qed.

Lemma build_messages_shape (state : AgentState) :
  _build_llm_messages self state
  = mkChat system_role (AGENT_SYSTEM_PROMPT (prompts self))
      :: map spec_role_mapping (conversation_history state)
      ++ [context_message state].
Proof.
  unfold _build_llm_messages. rewrite fold_append_turn. reflexivity.
Qed.

(** C9.  For a history of N turns the rebuilt model input is the fixed
    system prompt, then the N turns in their order, each under the role
    mapping user to user, assistant to assistant, tool result to a system
    note prefixed with "[Tool Result] ", then one context-summary system
    message: N + 2 messages, the one at index i + 1 being the image of
    turn i. *)
Theorem build_llm_messages_preserves_turns (state : AgentState) :
  _build_llm_messages self state
  = [mkChat system_role (AGENT_SYSTEM_PROMPT (prompts self))]
      ++ map spec_role_mapping (conversation_history state)
      ++ [mkChat system_role
            ("Current Context:" ++ PyStr.nl
               ++ _build_context_summary state)%string]
  /\ length (_build_llm_messages self state)
    = length (conversation_history state) + 2
  /\ (forall i, i < length (conversation_history state) ->
        exists msg,
          nth_error (conversation_history state) i = Some msg
          /\ nth_error (_build_llm_messages self state) (S i)
             = Some (mkChat
                       (match role msg with
                        | user => user_role
                        | assistant => assistant_role
                        | tool => system_role
                        end)
                       (match role msg with
                        | tool => "[Tool Result] " ++ content msg
                        | _ => content msg
                        end)%string)).
Proof.
  rewrite build_messages_shape. split; [reflexivity|]. split.
  - simpl. rewrite length_app, length_map. simpl. lia.
  - intros i Hi.
    destruct (nth_error (conversation_history state) i) as [msg|] eqn:E.
    + exists msg. split; [reflexivity|]. simpl.
      rewrite nth_error_app1 by (rewrite length_map; exact Hi).
      rewrite nth_error_map, E. simpl.
      unfold spec_role_mapping. destruct (role msg); reflexivity.
    + apply nth_error_None in E. lia.
Qed.

(** *** The analyze tool *)

Lemma analyze_tool_sentinel (state : AgentState) (tr : Trace) :
  researched_companies state = [] ->
  _tool_analyze_companies self state tr
    = (Ok (Some "No companies researched yet."), tr).
Proof.
  intros H. unfold _tool_analyze_companies. rewrite H. reflexivity.
Qed.

(** C6.  On a state with no researched company the analyze tool returns
    the literal "No companies researched yet." and leaves the trace as it
    found it: no collaborator, so no model, is called. *)
Theorem analyze_nothing_researched (state : AgentState) (tr : Trace) :
  researched_companies state = [] ->
  _tool_analyze_companies self state tr
    = (Ok (Some "No companies researched yet."), tr)
  /\ filter is_model_call (snd (_tool_analyze_companies self state tr))
     = filter is_model_call tr.
Proof.
  intros H. rewrite (analyze_tool_sentinel _ _ H). split; reflexivity.
Qed.

(** *** What a decision step keeps *)

Lemma kept_refl (s : AgentState) : kept_up_to_research s s [].
Proof. unfold kept_up_to_research. rewrite app_nil_r. tauto. Qed.

Lemma research_loop_keeps (names : list string) :
  forall s count tr r s1 tr1,
    research_loop self names s count tr = (r, s1, tr1) ->
    exists extra,
      kept_up_to_research s s1 extra
      /\ (forall n, r = Ok n -> n = count + length extra).
Proof.
  induction names as [|company_name rest IH]; simpl;
    intros s count tr r s1 tr1 H.
  - inversion H; subst. exists []. split; [apply kept_refl|].
    intros n Hn. inversion Hn. simpl. lia.
  - destruct (_tool_research_company self company_name tr)
      as [[[company|]|e|b] tr'] eqn:E.
    + apply IH in H. destruct H as [extra [K Hn]].
      exists (company :: extra). split.
      * unfold kept_up_to_research in *. simpl in K.
        rewrite <- app_assoc in K. simpl in K. exact K.
      * intros n Hr. rewrite (Hn n Hr). simpl. lia.
    + apply IH in H. exact H.
    + inversion H; subst. exists []. split; [apply kept_refl|].
      intros n Hn. discriminate Hn.
    + inversion H; subst. exists []. split; [apply kept_refl|].
      intros n Hn. discriminate Hn.
Qed.









Lemma loop_stops_when_complete fuel s tr :
  conversation_complete s = true -> conversation_loop self fuel s tr
    = Returned s tr.
Proof. intros Hc. destruct fuel; simpl; rewrite Hc; reflexivity. Qed.

Lemma loop_unfold fuel s tr :
  conversation_loop self (S fuel) s tr
  = if conversation_complete s then Returned s tr
    else
      let (s1, tr1) := agent_decision_step self s tr in
      match step_interrupted self s tr with
      | Some b => Interrupted b tr1
      | None =>
          if (awaiting_user_input s1 && negb (conversation_complete s1))%bool
          then
            match call_input self tr1 with
            | (Raise e, tr2) => Escaped e tr2
            | (Interrupt b, tr2) => Interrupted b tr2
            | (Ok line, tr2) =>
                if is_exit_word (PyStr.lower (PyStr.strip line))
                then Returned (set_complete true s1) tr2
                else
                  conversation_loop self fuel
                    (set_awaiting false
                       (append_message
                          (mkMessage user (PyStr.strip line)
                             (now (services self) tr2)) s1))
                    tr2
            end
          else conversation_loop self fuel s1 tr1
      end.
Proof. reflexivity. Qed.

Lemma loop_returns_complete fuel :
  forall s tr s' tr',
    conversation_loop self fuel s tr = Returned s' tr' ->
    conversation_complete s' = true
    /\ forall more, conversation_loop self (fuel + more) s tr = Returned s' tr'.
Proof.
  induction fuel as [|fuel IH]; intros s tr s' tr' H.
  - simpl in H. destruct (conversation_complete s) eqn:Hc; [|discriminate].
    inversion H; subst. split; [assumption|].
    intros more. now apply loop_stops_when_complete.
  - rewrite loop_unfold in H.
    assert (Hplus : forall more, S fuel + more = S (fuel + more))
      by (intros; lia).
    destruct (conversation_complete s) eqn:Hc.
    + inversion H; subst. split; [assumption|].
      intros more. now apply loop_stops_when_complete.
    + destruct (agent_decision_step self s tr) as [s1 tr1] eqn:Es.
      destruct (step_interrupted self s tr) as [b|] eqn:Eb; [discriminate|].
      destruct (awaiting_user_input s1 && negb (conversation_complete s1))%bool
        eqn:Ew.
      * destruct (call_input self tr1)
          as [[line|e|b] tr2] eqn:Ei; [|discriminate|discriminate].
        destruct (is_exit_word (PyStr.lower (PyStr.strip line))) eqn:Ex.
        -- inversion H; subst. split; [reflexivity|].
           intros more.
           rewrite Hplus, loop_unfold, Hc, Es, Eb, Ew, Ei, Ex. reflexivity.
        -- apply IH in H. destruct H as [Hd Hm]. split; [assumption|].
           intros more.
           rewrite Hplus, loop_unfold, Hc, Es, Eb, Ew, Ei, Ex. apply Hm.
      * apply IH in H. destruct H as [Hd Hm]. split; [assumption|].
        intros more. rewrite Hplus, loop_unfold, Hc, Es, Eb, Ew. apply Hm.
Qed.


(** *** The failure path of a decision step *)



(** *** The waiting flag after a handler *)

Lemma dispatch_ok_flag d s tr u s1 tr1 :
  dispatch self d s tr = (Ok u, s1, tr1) ->
  awaiting_user_input s1
  = match decision_type d with
    | respond | ask_question | analyze_companies => true
    | search_tools | research_company | end_ => awaiting_user_input s
    end
  /\ (decision_type d = end_ -> conversation_complete s1 = true).
Proof.
  unfold dispatch. intros H.
  destruct (decision_type d).
  - destruct (message d); inversion H; subst. split; [reflexivity|discriminate].
  - destruct (message d); inversion H; subst. split; [reflexivity|discriminate].
  - destruct (d_search_tools d) as [args|]; [|discriminate].
    destruct (_tool_search_tools self (query args) (num_results args) tr)
      as [[tools|e'|b] tr'];
      inversion H; subst. split; [reflexivity|discriminate].
  - destruct (d_research_company d) as [args|]; [|discriminate].
    destruct (research_loop self (company_names args) s 0 tr)
      as [[[n|e'|b] s'] tr'] eqn:E;
      inversion H; subst.
    apply research_loop_keeps in E. destruct E as [extra [K _]].
    unfold kept_up_to_research in K. simpl.
    split; [intuition congruence|discriminate].
  - destruct (d_analyze_companies d); [|discriminate].
    destruct (_tool_analyze_companies self s tr)
      as [[[text|]|e'|b] tr']; inversion H; subst.
    split; [reflexivity|discriminate].
  - destruct (d_end d); inversion H; subst. split; reflexivity.
Qed.

(** The handlers of respond, ask_question and end call no collaborator,
    so nothing can interrupt them. *)
Lemma dispatch_interrupt_type d s tr b s1 tr1 :
  dispatch self d s tr = (Interrupt b, s1, tr1) ->
  decision_type d = search_tools
  \/ decision_type d = research_company
  \/ decision_type d = analyze_companies.
Proof.
  unfold dispatch. intros H.
  destruct (decision_type d); auto.
  - destruct (message d); discriminate H.
  - destruct (message d); discriminate H.
  - destruct (d_end d); discriminate H.
Qed.

(** C3, as the code has it.  After a decision step whose decision is of
    type respond or ask_question the waiting flag is true, whatever the
    handler did, and so it is after a decision step that returns and
    whose decision is of type analyze_companies.  After a decision step
    entered with the flag false whose decision is of type search_tools,
    research_company or end, and whose handler completes without raising,
    the flag is false, and for end the conversation is complete; when the
    handler of such a decision raises instead, the flag is true after the
    step. *)
Theorem awaiting_after_dispatch s tr d :
  llm_decision (services self) tr (_build_llm_messages self s) = Ok d ->
  match decision_type d with
  | respond | ask_question =>
      awaiting_user_input (fst (agent_decision_step self s tr)) = true
  | analyze_companies =>
      step_interrupted self s tr = None ->
      awaiting_user_input (fst (agent_decision_step self s tr)) = true
  | search_tools | research_company | end_ =>
      (awaiting_user_input s = false ->
       fst (fst (try_body self s tr)) = Ok tt ->
       awaiting_user_input (fst (agent_decision_step self s tr)) = false
       /\ (decision_type d = end_ ->
           conversation_complete (fst (agent_decision_step self s tr))
           = true))
      /\ (forall e,
            fst (fst (try_body self s tr)) = Raise e ->
            awaiting_user_input (fst (agent_decision_step self s tr)) = true)
  end.
Proof.
  intros Hd.
  unfold agent_decision_step, step_interrupted, try_body, call_decision.
  rewrite Hd.
  destruct (dispatch self d s
              (tr ++ [EvDecision (_build_llm_messages self s) (Ok d)]))
    as [[[u|e|b] s1] tr1] eqn:E.
  - destruct (dispatch_ok_flag _ _ _ E) as [Hf He].
    destruct (decision_type d); simpl; try exact Hf;
      try (intros _; exact Hf);
      (split;
       [intros Hs _; (split; [congruence|exact He])
       |intros e0 Hr; discriminate Hr]).
  - destruct (decision_type d); simpl; try reflexivity;
      try (intros _; reflexivity);
      (split; [intros _ Hr; discriminate Hr|intros e0 _; reflexivity]).
  - apply dispatch_interrupt_type in E.
    destruct (decision_type d); simpl;
      try (intros Hn; discriminate Hn);
      try (split; [intros _ Hr; discriminate Hr
                  |intros e0 Hr; discriminate Hr]);
      destruct E as [E|[E|E]]; discriminate E.
Qed.

(** C10.  An analyze_companies decision that carries its call, taken on
    a state with no researched company, goes through like an analysis
    that succeeded: the step returns, the analysis field becomes the
    sentinel, a tool turn "Analysis complete" and an assistant turn with
    the sentinel are appended in that order, the waiting flag is set,
    nothing else changes, and the decision call is the only call made. *)
Theorem analyze_decision_on_empty_research s tr d :
  researched_companies s = [] ->
  llm_decision (services self) tr (_build_llm_messages self s) = Ok d ->
  decision_type d = analyze_companies ->
  d_analyze_companies d <> None ->
  agent_decision_step self s tr
  = (mkAgentState
       (conversation_history s
          ++ [mkMessage tool "Analysis complete"
                (now (services self)
                   (tr ++ [EvDecision (_build_llm_messages self s) (Ok d)]));
              mkMessage assistant "No companies researched yet."
                (now (services self)
                   (tr ++ [EvDecision (_build_llm_messages self s) (Ok d)]))])
       (current_query s) (extracted_tools s) (researched_companies s)
       (pending_action s) true (Some "No companies researched yet.")
       (conversation_complete s),
     tr ++ [EvDecision (_build_llm_messages self s) (Ok d)])
  /\ step_interrupted self s tr = None.
Proof.
  intros Hr Hd Ht Hp.
  unfold agent_decision_step, step_interrupted, try_body, call_decision.
  rewrite Hd.
  unfold dispatch. rewrite Ht.
  destruct (d_analyze_companies d) as [call|]; [|congruence].
  rewrite (analyze_tool_sentinel _ _ Hr).
  split; [|reflexivity].
  unfold append_message, set_awaiting, set_analysis, set_history. simpl.
  rewrite <- app_assoc. reflexivity.
Qed.


(** *** The search tool *)

(** Every collaborator call only adds to the trace. *)
Lemma collect_content_extends (results : list WebResult) :
  forall acc tr, exists added,
    snd (collect_content self results acc tr) = tr ++ added.
Proof.
  induction results as [|result rest IH]; intros acc tr; simpl.
  - exists []. now rewrite app_nil_r.
  - destruct (result_url result) as [[|c u]|]; try apply IH.
    unfold bind, call_scrape.
    destruct (scrape_company_pages (services self) tr (String c u))
      as [scraped|e|b] eqn:E.
    + assert (Hrest : forall acc', exists added,
                snd (collect_content self rest acc'
                       (tr ++ [EvScrape (String c u) (Ok scraped)]))
                = tr ++ added).
      { intros acc'.
        destruct (IH acc' (tr ++ [EvScrape (String c u) (Ok scraped)]))
          as [added Ha].
        exists ([EvScrape (String c u) (Ok scraped)] ++ added).
        rewrite Ha, app_assoc. reflexivity. }
      destruct scraped as [[[[|c' md]|]]|]; apply Hrest.
    + exists [EvScrape (String c u) (Raise e)]. reflexivity.
    + exists [EvScrape (String c u) (Interrupt b)]. reflexivity.
Qed.

(** A collection that raised did so in a scrape, which is then the last
    call on the trace. *)
Lemma collect_content_raise (results : list WebResult) :
  forall acc tr e tr1,
    collect_content self results acc tr = (Raise e, tr1) ->
    exists tr0 url r, tr1 = tr0 ++ [EvScrape url r].
Proof.
  induction results as [|result rest IH]; intros acc tr e tr1 H; simpl in H.
  - discriminate H.
  - destruct (result_url result) as [[|c u]|]; try (eapply IH; eassumption).
    unfold bind, call_scrape in H.
    destruct (scrape_company_pages (services self) tr (String c u))
      as [scraped|e'|b] eqn:E.
    + destruct scraped as [[[[|c' md]|]]|]; eapply IH; eassumption.
    + inversion H; subst. eauto.
    + discriminate H.
Qed.

(** Likewise for a collection that was interrupted. *)
Lemma collect_content_interrupt (results : list WebResult) :
  forall acc tr b tr1,
    collect_content self results acc tr = (Interrupt b, tr1) ->
    exists tr0 url, tr1 = tr0 ++ [EvScrape url (Interrupt b)].
Proof.
  induction results as [|result rest IH]; intros acc tr b tr1 H; simpl in H.
  - discriminate H.
  - destruct (result_url result) as [[|c u]|]; try (eapply IH; eassumption).
    unfold bind, call_scrape in H.
    destruct (scrape_company_pages (services self) tr (String c u))
      as [scraped|e'|b'] eqn:E.
    + destruct scraped as [[[[|c' md]|]]|]; eapply IH; eassumption.
    + discriminate H.
    + inversion H; subst. eauto.
Qed.

Lemma search_tool_unfold q n tr :
  _tool_search_tools self q n tr
  = match search_companies (services self) tr (article_query q) n with
    | Raise e =>
        (Raise e, tr ++ [EvSearch (article_query q) n (Raise e)])
    | Interrupt b =>
        (Interrupt b, tr ++ [EvSearch (article_query q) n (Interrupt b)])
    | Ok None =>
        (Raise (AttributeError "web"),
         tr ++ [EvSearch (article_query q) n (Ok None)])
    | Ok (Some data) =>
        let tr1 := tr ++ [EvSearch (article_query q) n (Ok (Some data))] in
        match collect_content self
                (match web data with Some l => l | None => [] end) "" tr1 with
        | (Raise e, tr2) => (Raise e, tr2)
        | (Interrupt b, tr2) => (Interrupt b, tr2)
        | (Ok all_content, tr2) =>
            let msgs := extraction_messages self q all_content in
            match llm_completion (services self) tr2 msgs with
            | Ok (Some text) =>
                (Ok (parse_tool_names text),
                 tr2 ++ [EvCompletion msgs (Ok (Some text))])
            | Ok None => (Ok [], tr2 ++ [EvCompletion msgs (Ok None)])
            | Raise e => (Ok [], tr2 ++ [EvCompletion msgs (Raise e)])
            | Interrupt b =>
                (Interrupt b, tr2 ++ [EvCompletion msgs (Interrupt b)])
            end
        end
    end.
Proof.
  unfold _tool_search_tools, bind, call_search.
  destruct (search_companies (services self) tr (article_query q) n)
    as [[data|]|e|b];
    try reflexivity.
  destruct (collect_content self _ "" _) as [[all_content|e|b] tr2];
    try reflexivity.
  unfold try_except, bind, call_completion, ret, raise.
  destruct (llm_completion (services self) tr2 _) as [[text|]|e|b];
    reflexivity.
Qed.

Lemma search_tool_failed_extraction q n tr res tr1 tr0 msgs e :
  _tool_search_tools self q n tr = (res, tr1) ->
  tr1 = tr0 ++ [EvCompletion msgs (Raise e)] ->
  res = Ok [].
Proof.
  rewrite search_tool_unfold. intros H Hlast. subst tr1.
  destruct (search_companies (services self) tr (article_query q) n)
    as [[data|]|e1|b1].
  - cbv zeta in H.
    destruct (collect_content self _ "" _) as [[all_content|e2|b2] tr2] eqn:Ec.
    + destruct (llm_completion (services self) tr2 _) as [[text|]|e3|b3];
        injection H as Hr Ht;
        try (apply app_inj_tail in Ht; destruct Ht as [_ Hev];
             discriminate Hev).
      symmetry. exact Hr.
    + injection H as Hr Ht.
      apply collect_content_raise in Ec. destruct Ec as (t & url & r & Hc).
      rewrite Hc in Ht. apply app_inj_tail in Ht.
      destruct Ht as [_ Hev]. discriminate Hev.
    + injection H as Hr Ht.
      apply collect_content_interrupt in Ec. destruct Ec as (t & url & Hc).
      rewrite Hc in Ht. apply app_inj_tail in Ht.
      destruct Ht as [_ Hev]. discriminate Hev.
  - injection H as Hr Ht.
    apply app_inj_tail in Ht. destruct Ht as [_ Hev]. discriminate Hev.
  - injection H as Hr Ht.
    apply app_inj_tail in Ht. destruct Ht as [_ Hev]. discriminate Hev.
  - injection H as Hr Ht.
    apply app_inj_tail in Ht. destruct Ht as [_ Hev]. discriminate Hev.
Qed.

(** C7.  When the extraction call of a search_tools action fails, that
    is, when the action ends on a free-text model call that raised, the
    tool returns the empty candidate list, and the handler of any
    search_tools decision with these arguments completes with the
    extracted-tools list of the state unchanged, in content and so in
    length. *)
Theorem search_extraction_failure q n tr res tr1 tr0 msgs e :
  _tool_search_tools self q n tr = (res, tr1) ->
  tr1 = tr0 ++ [EvCompletion msgs (Raise e)] ->
  res = Ok []
  /\ forall d s args,
       decision_type d = search_tools ->
       d_search_tools d = Some args ->
       query args = q -> num_results args = n ->
       exists s1,
         dispatch self d s tr = (Ok tt, s1, tr1)
         /\ extracted_tools s1 = extracted_tools s
         /\ length (extracted_tools s1) = length (extracted_tools s).
Proof.
  intros H Hlast.
  assert (Hres : res = Ok [])
    by (eapply search_tool_failed_extraction; eassumption).
  split; [exact Hres|].
  intros d s args Ht Ha Hq Hn.
  unfold dispatch. rewrite Ht, Ha, Hq, Hn, H, Hres.
  eexists. split; [reflexivity|]. simpl. rewrite app_nil_r. split; reflexivity.
Qed.

(** C8, as the code has it.  The first call of a search_tools action is
    the search, and its query is the input query followed by a space and
    "tools comparision best alternatives", the spelling of the source
    string, which is not the spelling "tools comparison best
    alternatives" of the comment above it. *)
Theorem search_query_is_misspelled :
  (forall q n tr, exists r rest,
      snd (_tool_search_tools self q n tr)
      = tr ++ EvSearch (q ++ " tools comparision best alternatives")%string n r
             :: rest)
  /\ article_query "db" = "db tools comparision best alternatives"
  /\ article_query "db" <> "db tools comparison best alternatives".
Proof.
  split; [|split; [reflexivity|discriminate]].
  intros q n tr. rewrite search_tool_unfold.
  fold (article_query q).
  destruct (search_companies (services self) tr (article_query q) n)
    as [[data|]|e1|b1].
  - cbv zeta.
    destruct (collect_content_extends
                (match web data with Some l => l | None => [] end) ""
                (tr ++ [EvSearch (article_query q) n (Ok (Some data))]))
      as [added Ha].
    destruct (collect_content self _ "" _) as [[all_content|e2|b2] tr2];
      simpl in Ha; subst tr2.
    + destruct (llm_completion (services self) _ _) as [[text|]|e3|b3]; simpl;
        eexists; eexists; rewrite <- !app_assoc; reflexivity.
    + simpl. eexists; eexists; rewrite <- !app_assoc; reflexivity.
    + simpl. eexists; eexists; rewrite <- !app_assoc; reflexivity.
  - simpl. eexists; eexists; reflexivity.
  - simpl. eexists; eexists; reflexivity.
  - simpl. eexists; eexists; reflexivity.
Qed.


(** *** The research tool *)

Lemma research_tool_found company_name tr answer url scraped :
  search_companies (services self) tr
    (company_name ++ " official site")%string 1%Z
  = Ok answer ->
  usable_url answer = Some url ->
  scrape_company_pages (services self)
    (tr ++ [EvSearch (company_name ++ " official site")%string 1%Z (Ok answer)])
    url
  = Ok scraped ->
  (forall tr' msgs,
      interrupt_of (llm_analysis (services self) tr' msgs) = None) ->
  exists company tr1,
    _tool_research_company self company_name tr = (Ok (Some company), tr1)
    /\ name company = company_name
    /\ website company = url.
Proof.
  intros Hs Hu Hp Hn.
  unfold _tool_research_company, bind, call_search. rewrite Hs.
  unfold usable_url in Hu.
  destruct answer as [[[[|result rest]|]]|]; try discriminate Hu.
  destruct (result_url result) as [[|c u]|]; try discriminate Hu.
  injection Hu as Hu. subst url.
  unfold call_scrape. rewrite Hp.
  destruct scraped as [[[[|c' md]|]]|];
    try (eexists; eexists; split; [reflexivity|split; reflexivity]).
  unfold _analyze_company_content, try_except, call_analysis, ret.
  destruct (llm_analysis (services self) _ _) as [a|e|b] eqn:Ea;
    try (eexists; eexists; (split; [reflexivity|split; reflexivity])).
  match type of Ea with
  | llm_analysis _ ?t ?m = _ => pose proof (Hn t m) as Hi
  end.
  rewrite Ea in Hi. discriminate Hi.
Qed.

Lemma research_tool_missing company_name tr answer :
  search_companies (services self) tr
    (company_name ++ " official site")%string 1%Z
  = Ok answer ->
  usable_url answer = None ->
  exists tr1, _tool_research_company self company_name tr = (Ok None, tr1).
Proof.
  intros Hs Hu.
  unfold _tool_research_company, bind, call_search. rewrite Hs.
  unfold usable_url in Hu.
  destruct answer as [[[[|result rest]|]]|];
    try (eexists; reflexivity).
  destruct (result_url result) as [[|c u]|];
    try discriminate Hu; eexists; reflexivity.
Qed.

(** C5, as the code has it.  A research_company decision for the names
    "A" and "B", taken when the search for "A official site" offers a
    usable URL, the scrape of that URL returns, no analysis call is left
    by an exception outside [Exception], and the search for "B official
    site" offers no result or no URL: the step returns, having appended
    exactly one record to the researched list, the one for "A" with that
    URL as its website, and exactly one turn to the history, a tool turn
    reading "Researched 1/2 companies: A, B". *)
Theorem research_one_of_two s tr d reasoning url :
  llm_decision (services self) tr (_build_llm_messages self s) = Ok d ->
  decision_type d = research_company ->
  d_research_company d = Some (mkResearchCompanyCall ["A"; "B"] reasoning) ->
  (forall tr', exists answer,
      search_companies (services self) tr' "A official site" 1%Z = Ok answer
      /\ usable_url answer = Some url) ->
  (forall tr', exists scraped,
      scrape_company_pages (services self) tr' url = Ok scraped) ->
  (forall tr' msgs,
      interrupt_of (llm_analysis (services self) tr' msgs) = None) ->
  (forall tr', exists answer,
      search_companies (services self) tr' "B official site" 1%Z = Ok answer
      /\ usable_url answer = None) ->
  step_interrupted self s tr = None
  /\ exists company t,
       researched_companies (fst (agent_decision_step self s tr))
       = researched_companies s ++ [company]
       /\ name company = "A"
       /\ website company = url
       /\ conversation_history (fst (agent_decision_step self s tr))
          = conversation_history s
              ++ [mkMessage tool "Researched 1/2 companies: A, B" t].
Proof.
  intros Hd Ht Hp HA Hscrape Hnoint HB.
  unfold agent_decision_step, step_interrupted, try_body, call_decision.
  rewrite Hd.
  unfold dispatch. rewrite Ht, Hp.
  set (tr1 := tr ++ [EvDecision (_build_llm_messages self s) (Ok d)]).
  destruct (HA tr1) as [answerA [HsA HuA]].
  destruct (Hscrape (tr1 ++ [EvSearch "A official site" 1%Z (Ok answerA)]))
    as [scraped Hsc].
  destruct (@research_tool_found "A" tr1 answerA url scraped HsA HuA Hsc
              Hnoint)
    as (company & tr2 & HrA & Hname & Hweb).
  destruct (HB tr2) as [answerB [HsB HuB]].
  destruct (@research_tool_missing "B" tr2 answerB HsB HuB) as [tr3 HrB].
  cbn [company_names research_loop]. rewrite HrA, HrB.
  split; [reflexivity|].
  exists company, (now (services self) tr3).
  cbn. repeat split; assumption.
Qed.


(** *** The waiting flag along a conversation *)

Lemma invokes_model_entry p s :
  awaiting_user_input s = flag_at p ->
  invokes_model p s = true ->
  awaiting_user_input s = false /\ conversation_complete s = false.
Proof.
  unfold invokes_model, waits_for_user. intros Hf Hi.
  destruct (conversation_complete s); [discriminate Hi|].
  split; [|reflexivity].
  destruct p as [|dt| |]; simpl in *;
    try assumption;
    destruct (awaiting_user_input s); simpl in Hi; congruence.
Qed.

Lemma flag_follows_position m tr0 p s tr :
  reach self m tr0 p s tr -> awaiting_user_input s = flag_at p.
Proof.
  induction 1 as [ | p s tr d tr1 s2 tr2 Hr IH Hi Hc Hd
                   | p s tr e s1 tr1 Hr IH Hi Hb
                   | p s tr line tr1 Hr IH Hw Hin Hx
                   | p s tr line tr1 Hr IH Hw Hin Hx ].
  - reflexivity.
  - destruct (invokes_model_entry _ _ IH Hi) as [Ha _].
    destruct (dispatch_ok_flag _ _ _ Hd) as [Hf _].
    rewrite Hf. destruct (decision_type d); simpl; congruence.
  - reflexivity.
  - reflexivity.
  - simpl. exact IH.
Qed.

(** Every state the loop hands back is one of the positions. *)
Lemma loop_result_reachable m tr0 fuel :
  forall p s tr s' tr',
    reach self m tr0 p s tr ->
    waits_for_user p s = false ->
    conversation_loop self fuel s tr = Returned s' tr' ->
    exists p', reach self m tr0 p' s' tr'.
Proof.
  induction fuel as [|fuel IH]; intros p s tr s' tr' Hr Hw H.
  - simpl in H. destruct (conversation_complete s); [|discriminate].
    inversion H; subst. eauto.
  - rewrite loop_unfold in H.
    destruct (conversation_complete s) eqn:Hc.
    { inversion H; subst. eauto. }
    assert (Hi : invokes_model p s = true).
    { unfold invokes_model. rewrite Hc, Hw. reflexivity. }
    destruct (step_interrupted self s tr) as [b|] eqn:Hn.
    { destruct (agent_decision_step self s tr); discriminate H. }
    assert (Hstep : exists p1,
               reach self m tr0 p1 (fst (agent_decision_step self s tr))
                 (snd (agent_decision_step self s tr))
               /\ waits_for_user p1 (fst (agent_decision_step self s tr))
                  = (awaiting_user_input (fst (agent_decision_step self s tr))
                     && negb (conversation_complete
                                (fst (agent_decision_step self s tr))))%bool).
    { unfold agent_decision_step. unfold step_interrupted in Hn.
      destruct (try_body self s tr) as [[[u|e|b] s1] tr1] eqn:Eb.
      - unfold try_body in Eb.
        destruct (call_decision self (_build_llm_messages self s) tr)
          as [[d|e|b] trd] eqn:Ed;
          [|discriminate Eb|discriminate Eb].
        destruct u. exists (AfterAction (decision_type d)). split.
        + eapply reach_action; eassumption.
        + reflexivity.
      - exists AfterFailure. split.
        + eapply reach_failure; eassumption.
        + reflexivity.
      - discriminate Hn. }
    destruct Hstep as (p1 & Hr1 & Hw1).
    destruct (agent_decision_step self s tr) as [s1 tr1]. simpl in Hr1, Hw1.
    destruct (awaiting_user_input s1 && negb (conversation_complete s1))%bool.
    + destruct (call_input self tr1) as [[line|e|b] tr2] eqn:Ei;
        [|discriminate|discriminate].
      destruct (is_exit_word (PyStr.lower (PyStr.strip line))) eqn:Ex.
      * inversion H; subst. exists p1. eapply reach_exit; eassumption.
      * eapply (IH AfterUserText); [|reflexivity|exact H].
        eapply reach_user_text; eassumption.
    + eapply (IH p1); eassumption.
Qed.

(** C4, as the code has it.  At every position a conversation reaches,
    the waiting flag is true exactly when the position is right after a
    respond, ask_question or analyze_companies action or right after a
    decision step that took the failure path; so it is false at the
    start, right after a search_tools, research_company or end action and
    right after user text, and in particular wherever the loop goes on to
    invoke the model again.  The states [run_conversation] returns are
    among these positions. *)
Theorem awaiting_flag_by_position m tr0 :
  (forall p s tr,
      reach self m tr0 p s tr ->
      awaiting_user_input s = flag_at p
      /\ (awaiting_user_input s = true ->
          p = AfterFailure
          \/ p = AfterAction respond
          \/ p = AfterAction ask_question
          \/ p = AfterAction analyze_companies)
      /\ (invokes_model p s = true -> awaiting_user_input s = false))
  /\ (forall fuel s' tr',
        run_conversation self fuel m tr0 = Returned s' tr' ->
        exists p', reach self m tr0 p' s' tr').
Proof.
  split.
  - intros p s tr Hr.
    pose proof (flag_follows_position Hr) as Hf.
    split; [exact Hf|]. split.
    + rewrite Hf. intros Ht.
      destruct p as [|[]| |]; simpl in Ht; try discriminate Ht; tauto.
    + intros Hi. apply (invokes_model_entry _ _ Hf Hi).
  - intros fuel s' tr' H. unfold run_conversation in H.
    eapply loop_result_reachable with (p := AtStart); [|reflexivity|exact H].
    apply reach_start.
Qed.

End Properties.

(* ================================================================== *)
(** ** The properties on scripted worlds *)




(** A reply and an end decision, each taken on a fresh state, an
    analysis that returns, and a search that fails on the network. *)
Lemma awaiting_after_dispatch_witness :
  awaiting_user_input
    (fst (agent_decision_step Demo.short_chat
            Demo.empty_state [])) = true
  /\ awaiting_user_input
       (fst (agent_decision_step Demo.ends_now
               Demo.empty_state [])) = false
  /\ conversation_complete
       (fst (agent_decision_step Demo.ends_now
               Demo.empty_state [])) = true
  /\ awaiting_user_input
       (fst (agent_decision_step Scenes.recommends
               Scenes.one_researched [])) = true
  /\ awaiting_user_input
       (fst (agent_decision_step Demo.search_breaks
               Demo.empty_state [])) = true.
Proof.
  split; [|split; [|split; [|split]]].
  - exact (awaiting_after_dispatch Demo.short_chat
             Demo.empty_state [] (d := Demo.say "Which language?") eq_refl).
  - pose proof (awaiting_after_dispatch Demo.ends_now
                  Demo.empty_state [] (d := Demo.finish) eq_refl) as K.
    cbn [decision_type Demo.finish] in K.
    exact (proj1 (proj1 K eq_refl eq_refl)).
  - pose proof (awaiting_after_dispatch Demo.ends_now
                  Demo.empty_state [] (d := Demo.finish) eq_refl) as K.
    cbn [decision_type Demo.finish] in K.
    exact (proj2 (proj1 K eq_refl eq_refl) eq_refl).
  - pose proof (awaiting_after_dispatch Scenes.recommends
                  Scenes.one_researched [] (d := Demo.analyze) eq_refl) as K.
    cbn [decision_type Demo.analyze] in K.
    exact (K eq_refl).
  - pose proof (awaiting_after_dispatch Demo.search_breaks
                  Demo.empty_state [] (d := Demo.search_db) eq_refl) as K.
    cbn [decision_type Demo.search_db] in K.
    exact (proj2 K (ExternalError "network") eq_refl).
Defined.

(** C3 as stated fails: a search_tools decision that carries its call,
    taken with the flag false, leaves the flag true when the search service
    raises inside the handler; so does an end decision that comes without
    its call, which also leaves the conversation open; and an
    analyze_companies step that an interrupt leaves during the
    recommendation call has not set the flag. *)
Lemma failed_search_leaves_flag_true :
  well_formed Demo.search_db = true
  /\ ~ flag_settled_by_decision_type Demo.search_breaks Demo.empty_state []
  /\ ~ flag_settled_by_decision_type Demo.ends_without_call
         Demo.empty_state []
  /\ ~ flag_settled_by_decision_type Scenes.interrupted_recommendation
         Scenes.one_researched [].
Proof.
  split; [reflexivity|].
  unfold flag_settled_by_decision_type. split; [|split]; intros H.
  - specialize (H Demo.search_db eq_refl).
    cbn [decision_type Demo.search_db] in H.
    destruct (H eq_refl) as [K _].
    vm_compute in K. discriminate K.
  - specialize (H (Demo.decide end_) eq_refl).
    cbn [decision_type Demo.decide] in H.
    destruct (H eq_refl) as [K _].
    vm_compute in K. discriminate K.
  - specialize (H Demo.analyze eq_refl).
    cbn [decision_type Demo.analyze] in H.
    vm_compute in H. discriminate H.
Qed.

(** The start of a conversation, and the state a short chat returns. *)
Lemma awaiting_flag_by_position_witness :
  awaiting_user_input (initial_state Demo.short_chat "hello" []) = false
  /\ exists p s tr,
       reach Demo.short_chat "hello" [] p s tr
       /\ run_conversation Demo.short_chat 3 "hello" []
          = Returned s tr.
Proof.
  destruct (awaiting_flag_by_position
              Demo.short_chat "hello" []) as [H1 H2].
  split.
  - destruct (H1 AtStart _ _
                (reach_start Demo.short_chat "hello" []))
      as (_ & _ & Hi).
    exact (Hi eq_refl).
  - assert (Hrun : exists s tr,
               run_conversation Demo.short_chat 3
                 "hello" [] = Returned s tr)
      by (eexists; eexists; vm_compute; reflexivity).
    destruct Hrun as (s & tr & Hrun).
    destruct (H2 3 s tr Hrun) as [p Hp].
    exists p, s, tr. split; [exact Hp|exact Hrun].
Defined.

(** C4 as stated fails: when the model call of the first decision step
    fails, the conversation stands right after a failure, which is none of
    the claimed positions, with the flag true. *)
Lemma flag_true_after_failure :
  ~ flag_true_only_where_claimed Demo.model_down
      "hello" [].
Proof.
  unfold flag_true_only_where_claimed. intros H.
  assert (Hr : reach Demo.model_down "hello" []
                 AfterFailure
                 (on_error Demo.model_down
                    (initial_state Demo.model_down "hello" [])
                    [EvDecision
                       (_build_llm_messages Demo.model_down
                          (initial_state Demo.model_down "hello" []))
                       (Raise (ExternalError "script exhausted"))])
                 [EvDecision
                    (_build_llm_messages Demo.model_down
                       (initial_state Demo.model_down "hello" []))
                    (Raise (ExternalError "script exhausted"))]).
  { eapply reach_failure with (p := AtStart).
    - apply reach_start.
    - reflexivity.
    - reflexivity. }
  specialize (H _ _ _ Hr eq_refl). discriminate H.
Qed.

(** "A" has a site and "B" has none. *)
Lemma research_one_of_two_witness :
  (forall tr', exists answer,
      search_companies (services Demo.only_A_found) tr' "B official site" 1%Z
        = Ok answer
      /\ usable_url answer = None)
  /\ step_interrupted Demo.only_A_found Demo.empty_state [] = None
  /\ exists company t,
       researched_companies
         (fst (agent_decision_step Demo.only_A_found
                 Demo.empty_state []))
       = researched_companies Demo.empty_state ++ [company]
       /\ name company = "A"
       /\ website company = "https://a.example"
       /\ conversation_history
            (fst (agent_decision_step Demo.only_A_found
                    Demo.empty_state []))
          = conversation_history Demo.empty_state
              ++ [mkMessage tool "Researched 1/2 companies: A, B" t].
Proof.
  assert (HB : forall tr', exists answer,
             search_companies (services Demo.only_A_found) tr'
               "B official site" 1%Z
             = Ok answer
             /\ usable_url answer = None).
  { intros tr'. eexists. split; reflexivity. }
  split; [exact HB|].
  apply (research_one_of_two Demo.only_A_found
           Demo.empty_state [] (d := Demo.research_A_B)
           (reasoning := "compare the two") (url := "https://a.example")).
  - reflexivity.
  - reflexivity.
  - reflexivity.
  - intros tr'. eexists. split; reflexivity.
  - intros tr'. eexists. reflexivity.
  - intros tr' msgs. reflexivity.
  - exact HB.
Defined.

(** C5 as stated fails: "A" has a usable URL and "B" has none, but when
    the page of "A" cannot be fetched the batch fails before any record is
    appended, and when an interrupt leaves the analysis of that page the
    step is left with nothing appended either. *)
Lemma unfetched_page_loses_the_record :
  ~ one_of_two_by_search_alone Demo.scrape_breaks Demo.empty_state []
  /\ ~ one_of_two_by_search_alone Scenes.interrupted_analysis
        Demo.empty_state [].
Proof.
  unfold one_of_two_by_search_alone. split; intros H.
  - destruct (H Demo.research_A_B "compare the two"%string
                "https://a.example"%string eq_refl eq_refl eq_refl)
      as (company & t & Hr & _).
    + intros tr'. eexists. split; reflexivity.
    + intros tr'. eexists. split; reflexivity.
    + vm_compute in Hr. discriminate Hr.
  - destruct (H Demo.research_A_B "compare the two"%string
                "https://a.example"%string eq_refl eq_refl eq_refl)
      as (company & t & Hr & _).
    + intros tr'. eexists. split; reflexivity.
    + intros tr'. eexists. split; reflexivity.
    + vm_compute in Hr. discriminate Hr.
Qed.

(** The analyze tool on a fresh state. *)
Lemma analyze_nothing_researched_witness :
  researched_companies Demo.empty_state = []
  /\ _tool_analyze_companies Demo.analyze_first
       Demo.empty_state []
     = (Ok (Some "No companies researched yet."), []).
Proof.
  split; [reflexivity|].
  exact (proj1 (analyze_nothing_researched Demo.analyze_first
                  Demo.empty_state [] eq_refl)).
Defined.

(** A search for "db" whose article is found and scraped and whose
    extraction call fails. *)
Lemma search_extraction_failure_witness :
  fst (_tool_search_tools Demo.extraction_breaks "db" 3 [])
  = Ok []
  /\ exists s1,
       dispatch Demo.extraction_breaks Demo.search_db
         Demo.three_turns []
       = (Ok tt, s1,
          snd (_tool_search_tools Demo.extraction_breaks "db" 3 []))
       /\ extracted_tools s1 = ["X"].
Proof.
  destruct (@search_extraction_failure Demo.extraction_breaks "db" 3%Z []
              (fst (_tool_search_tools Demo.extraction_breaks "db" 3 []))
              (snd (_tool_search_tools Demo.extraction_breaks "db" 3 []))
              (removelast
                 (snd (_tool_search_tools Demo.extraction_breaks "db" 3 [])))
              (extraction_messages Demo.extraction_breaks "db"
                 ("A is a tool" ++ PyStr.nl ++ PyStr.nl)%string)
              (ExternalError "model")
              eq_refl eq_refl) as [Hres Hstep].
  split; [exact Hres|].
  destruct (Hstep Demo.search_db Demo.three_turns
              (mkSearchToolsCall "db" 3 "find candidates")
              eq_refl eq_refl eq_refl eq_refl) as (s1 & Hd & Ht & _).
  exists s1. split; [exact Hd|exact Ht].
Defined.

(** A history of a user turn, a tool result and an assistant turn. *)
Lemma build_llm_messages_preserves_turns_witness :
  1 < length (conversation_history Demo.three_turns)
  /\ nth_error (_build_llm_messages Demo.short_chat Demo.three_turns) 2
     = Some (mkChat system_role "[Tool Result] Found tools: X").
Proof.
  split; [simpl; lia|].
  destruct (build_llm_messages_preserves_turns Demo.short_chat Demo.three_turns)
    as (_ & _ & H).
  destruct (H 1 ltac:(simpl; lia)) as (msg & Hm & Hb).
  simpl in Hm. injection Hm as Hm. subst msg. exact Hb.
Defined.

(** An analyze decision taken before anything was researched. *)
Lemma analyze_decision_on_empty_research_witness :
  researched_companies Demo.empty_state = []
  /\ analysis
       (fst (agent_decision_step Demo.analyze_first
               Demo.empty_state []))
     = Some "No companies researched yet."
  /\ map content
       (conversation_history
          (fst (agent_decision_step Demo.analyze_first
                  Demo.empty_state [])))
     = ["Analysis complete"; "No companies researched yet."]
  /\ awaiting_user_input
       (fst (agent_decision_step Demo.analyze_first
               Demo.empty_state [])) = true.
Proof.
  split; [reflexivity|].
  rewrite (proj1 (analyze_decision_on_empty_research Demo.analyze_first
                    Demo.empty_state [] (d := Demo.analyze)
                    eq_refl eq_refl eq_refl
                    ltac:(discriminate))).
  repeat split; reflexivity.
Defined.


(* ================================================================== *)
(** ** Further properties: the string helpers *)

Section StringFacts.

Lemma lstrip_clean_start s :
  match PyStr.lstrip s with
  | EmptyString => True
  | String c _ => PyStr.is_space c = false
  end.
Proof.
  induction s as [|c rest IH]; simpl; [exact I|].
  destruct (PyStr.is_space c) eqn:E; [exact IH|exact E].
Qed.

Lemma lstrip_fixed s :
  match s with
  | EmptyString => True
  | String c _ => PyStr.is_space c = false
  end ->
  PyStr.lstrip s = s.
Proof. destruct s as [|c rest]; simpl; [reflexivity|]. now intros ->. Qed.

Lemma rstrip_cons c rest :
  PyStr.rstrip (String c rest)
  = match PyStr.rstrip rest with
    | EmptyString =>
        if PyStr.is_space c then EmptyString else String c EmptyString
    | r => String c r
    end.
Proof. reflexivity. Qed.

Lemma rstrip_idempotent s : PyStr.rstrip (PyStr.rstrip s) = PyStr.rstrip s.
Proof.
  induction s as [|c rest IH]; [reflexivity|].
  rewrite rstrip_cons.
  destruct (PyStr.rstrip rest) as [|c2 r2] eqn:E.
  - destruct (PyStr.is_space c) eqn:Ec; [reflexivity|].
    rewrite rstrip_cons. simpl. rewrite Ec. reflexivity.
  - rewrite rstrip_cons, IH. reflexivity.
Qed.

Lemma rstrip_keeps_clean_start s :
  match s with
  | EmptyString => True
  | String c _ => PyStr.is_space c = false
  end ->
  match PyStr.rstrip s with
  | EmptyString => True
  | String c _ => PyStr.is_space c = false
  end.
Proof.
  destruct s as [|c rest]; simpl; [trivial|]. intros Hc.
  destruct (PyStr.rstrip rest); [rewrite Hc|]; exact Hc.
Qed.

Lemma strip_idempotent s : PyStr.strip (PyStr.strip s) = PyStr.strip s.
Proof.
  unfold PyStr.strip.
  rewrite (lstrip_fixed (PyStr.rstrip (PyStr.lstrip s))).
  - apply rstrip_idempotent.
  - apply rstrip_keeps_clean_start, lstrip_clean_start.
Qed.

Lemma all_chars_lstrip p s :
  all_chars p s = true -> all_chars p (PyStr.lstrip s) = true.
Proof.
  induction s as [|c rest IH]; simpl; [trivial|].
  intros H. apply andb_prop in H. destruct H as [Hc Hr].
  destruct (PyStr.is_space c); [auto|]. simpl. now rewrite Hc, Hr.
Qed.

Lemma all_chars_rstrip p s :
  all_chars p s = true -> all_chars p (PyStr.rstrip s) = true.
Proof.
  induction s as [|c rest IH]; simpl; [trivial|].
  intros H. apply andb_prop in H. destruct H as [Hc Hr].
  specialize (IH Hr).
  destruct (PyStr.rstrip rest) as [|c2 r2].
  - destruct (PyStr.is_space c); simpl; [reflexivity|]. now rewrite Hc.
  - cbn [all_chars]. cbn [all_chars] in IH. now rewrite Hc, IH.
Qed.

Lemma all_chars_strip p s :
  all_chars p s = true -> all_chars p (PyStr.strip s) = true.
Proof. intros H. now apply all_chars_rstrip, all_chars_lstrip. Qed.

Lemma all_chars_append p s t :
  all_chars p (s ++ t)%string = (all_chars p s && all_chars p t)%bool.
Proof.
  induction s as [|c rest IH]; simpl; [reflexivity|].
  now rewrite IH, andb_assoc.
Qed.

Lemma split_lines_aux_one_line s :
  forall cur,
    one_line cur = true ->
    Forall (fun piece => one_line piece = true) (PyStr.split_lines_aux cur s).
Proof.
  induction s as [|c rest IH]; intros cur Hcur; simpl.
  - constructor; [exact Hcur|constructor].
  - destruct (Ascii.eqb c (ascii_of_nat 10)) eqn:E.
    + constructor; [exact Hcur|]. apply IH. reflexivity.
    + apply IH. unfold one_line in *. rewrite all_chars_append, Hcur. simpl.
      unfold is_newline. rewrite E. reflexivity.
Qed.

End StringFacts.

(* ================================================================== *)
(** ** Further properties: message building and parsing *)

Section Coverage.

Variable self : AgentWorkflow.

Lemma In_firstn {A : Type} (n : nat) (l : list A) (x : A) :
  In x (firstn n l) -> In x l.
Proof.
  intros H. rewrite <- (firstn_skipn n l). apply in_or_app. now left.
Qed.

Lemma tool_names_well_formed (response_content : string) :
  length (parse_tool_names response_content) <= 5
  /\ Forall (fun tool_name =>
               tool_name <> ""
               /\ PyStr.strip tool_name = tool_name
               /\ one_line tool_name = true)
       (parse_tool_names response_content).
Proof.
  unfold parse_tool_names. split; [apply firstn_le_length|].
  apply Forall_forall. intros x Hx.
  apply In_firstn in Hx. apply filter_In in Hx. destruct Hx as [Hx Ht].
  apply in_map_iff in Hx. destruct Hx as (piece & Hp & Hin). subst x.
  split; [|split].
  - intros E. rewrite E in Ht. discriminate Ht.
  - apply strip_idempotent.
  - apply all_chars_strip.
    pose proof (split_lines_aux_one_line (PyStr.strip response_content)
                  "" eq_refl) as Hall.
    rewrite Forall_forall in Hall. apply Hall. exact Hin.
Qed.

(** X1.  Whatever the model answers, the tool names read off its answer
    are at most five, and each of them is non-empty, carries no
    surrounding whitespace and holds no line break. *)
Theorem parse_tool_names_shape (response_content : string) :
  length (parse_tool_names response_content) <= 5
  /\ Forall (fun tool_name =>
               tool_name <> ""
               /\ PyStr.strip tool_name = tool_name
               /\ one_line tool_name = true)
       (parse_tool_names response_content).
Proof. exact (tool_names_well_formed response_content). Qed.

(** X2.  The context summary reads "No previous actions taken" exactly
    when no tool was extracted, no company was researched and there is no
    non-empty analysis. *)
Theorem context_summary_blank_iff (state : AgentState) :
  _build_context_summary state = "No previous actions taken"
  <-> extracted_tools state = []
      /\ researched_companies state = []
      /\ PyStr.opt_truthy (analysis state) = false.
Proof.
  unfold _build_context_summary. split.
  - destruct (extracted_tools state) as [|t ts];
      destruct (researched_companies state) as [|c cs];
      destruct (PyStr.opt_truthy (analysis state));
      simpl; intros H; try discriminate H; auto.
  - intros (Ht & Hr & Ha). rewrite Ht, Hr, Ha. reflexivity.
Qed.

(** X3.  The context summary shows the model only the first five
    extracted tools, the names of the researched companies and whether
    there is a non-empty analysis: two states that agree on these have the
    same summary. *)
Theorem context_summary_depends_on (s1 s2 : AgentState) :
  firstn 5 (extracted_tools s1) = firstn 5 (extracted_tools s2) ->
  map name (researched_companies s1) = map name (researched_companies s2) ->
  PyStr.opt_truthy (analysis s1) = PyStr.opt_truthy (analysis s2) ->
  _build_context_summary s1 = _build_context_summary s2.
Proof.
  intros Ht Hr Ha. unfold _build_context_summary.
  rewrite Ht, Hr, Ha.
  assert (Hlen : length (researched_companies s1)
                 = length (researched_companies s2)).
  { rewrite <- (length_map name (researched_companies s1)), Hr.
    apply length_map. }
  rewrite Hlen.
  destruct (extracted_tools s1) as [|t1 ts1];
    destruct (extracted_tools s2) as [|t2 ts2]; try discriminate Ht;
    destruct (researched_companies s1) as [|c1 cs1];
    destruct (researched_companies s2) as [|c2 cs2]; try discriminate Hr;
    reflexivity.
Qed.

(** *** The search tool *)

Lemma string_length_append (a b : string) :
  String.length (a ++ b)%string = String.length a + String.length b.
Proof. induction a as [|c a IH]; simpl; [reflexivity|]. now rewrite IH. Qed.

Lemma string_append_assoc (a b c : string) :
  ((a ++ b) ++ c = a ++ (b ++ c))%string.
Proof. induction a as [|x a IH]; simpl; [reflexivity|]. now rewrite IH. Qed.

Lemma string_append_empty (a : string) : (a ++ "")%string = a.
Proof. induction a as [|x a IH]; simpl; [reflexivity|]. now rewrite IH. Qed.

Lemma substring_from_start_length (n : nat) :
  forall s, String.length (substring 0 n s) <= n.
Proof.
  induction n as [|n IH]; intros s; destruct s as [|c s]; simpl; try lia.
  specialize (IH s). lia.
Qed.

(** What the page-collecting loop adds to the trace: scrapes only, at
    most one per web result. *)
Lemma collect_content_calls (results : list WebResult) :
  forall acc tr, exists added,
    snd (collect_content self results acc tr) = tr ++ added
    /\ Forall (fun e => is_scrape_call e = true) added
    /\ length added <= length results.
Proof.
  induction results as [|result rest IH]; intros acc tr; simpl.
  - exists []. rewrite app_nil_r.
    split; [reflexivity|split; [apply Forall_nil|simpl; lia]].
  - assert (Hskip : forall acc', exists added,
               snd (collect_content self rest acc' tr) = tr ++ added
               /\ Forall (fun e => is_scrape_call e = true) added
               /\ length added <= S (length rest)).
    { intros acc'. destruct (IH acc' tr) as (added & Ha & Hf & Hl).
      exists added. split; [exact Ha|split; [exact Hf|lia]]. }
    destruct (result_url result) as [[|c u]|]; try apply Hskip.
    unfold bind, call_scrape.
    destruct (scrape_company_pages (services self) tr (String c u))
      as [scraped|e|b] eqn:E.
    + assert (Hrest : forall acc', exists added,
                 snd (collect_content self rest acc'
                        (tr ++ [EvScrape (String c u) (Ok scraped)]))
                 = tr ++ added
                 /\ Forall (fun e => is_scrape_call e = true) added
                 /\ length added <= S (length rest)).
      { intros acc'.
        destruct (IH acc' (tr ++ [EvScrape (String c u) (Ok scraped)]))
          as (added & Ha & Hf & Hl).
        exists (EvScrape (String c u) (Ok scraped) :: added).
        rewrite Ha, <- app_assoc. split; [reflexivity|]. split.
        - constructor; [reflexivity|exact Hf].
        - simpl. lia. }
      destruct scraped as [[[[|c' md]|]]|]; apply Hrest.
    + exists [EvScrape (String c u) (Raise e)].
      split; [reflexivity|]. split; [|simpl; lia].
      constructor; [reflexivity|apply Forall_nil].
    + exists [EvScrape (String c u) (Interrupt b)].
      split; [reflexivity|]. split; [|simpl; lia].
      constructor; [reflexivity|apply Forall_nil].
Qed.

(** A collection that raised did so in its last call, a scrape that
    raised that very exception. *)
Lemma collect_content_raised_in_scrape (results : list WebResult) :
  forall acc tr e tr1,
    collect_content self results acc tr = (Raise e, tr1) ->
    exists tr0 url, tr1 = tr0 ++ [EvScrape url (Raise e)].
Proof.
  induction results as [|result rest IH]; intros acc tr e tr1 H; simpl in H.
  - discriminate H.
  - destruct (result_url result) as [[|c u]|]; try (eapply IH; eassumption).
    unfold bind, call_scrape in H.
    destruct (scrape_company_pages (services self) tr (String c u))
      as [scraped|e'|b] eqn:E.
    + destruct scraped as [[[[|c' md]|]]|]; eapply IH; eassumption.
    + inversion H; subst. eauto.
    + discriminate H.
Qed.

Lemma collect_content_grows (results : list WebResult) :
  forall acc tr content tr1,
    collect_content self results acc tr = (Ok content, tr1) ->
    (exists more, content = (acc ++ more)%string)
    /\ String.length content
       <= String.length acc + 1502 * length results.
Proof.
  induction results as [|result rest IH]; intros acc tr content tr1 H;
    cbn [collect_content] in H.
  - inversion H; subst. split; [|lia].
    exists ""%string. symmetry. apply string_append_empty.
  - assert (Hskip : forall tr',
               collect_content self rest acc tr' = (Ok content, tr1) ->
               (exists more, content = (acc ++ more)%string)
               /\ String.length content
                  <= String.length acc + 1502 * length (result :: rest)).
    { intros tr' H'. destruct (IH _ _ _ _ H') as [Hp Hl].
      split; [exact Hp|]. simpl. lia. }
    destruct (result_url result) as [[|c u]|]; try (eapply Hskip; eassumption).
    unfold bind, call_scrape in H.
    destruct (scrape_company_pages (services self) tr (String c u))
      as [scraped|e'|b] eqn:E; [|discriminate H|discriminate H].
    destruct scraped as [[[[|c' md]|]]|]; try (eapply Hskip; eassumption).
    destruct (IH _ _ _ _ H) as [[more Hp] Hl]. split.
    + eexists. rewrite Hp, !string_append_assoc. reflexivity.
    + rewrite !string_length_append in Hl.
      pose proof (substring_from_start_length 1500 (String c' md)) as Hs.
      unfold PyStr.prefix in Hl.
      change (String.length PyStr.nl) with 1 in Hl.
      change (length (result :: rest)) with (S (length rest)).
      lia.
Qed.

(** X4.  The search tool raises only for the search service or a scrape:
    when it raises, its last call is a search that raised that exception,
    a search whose answer carries no results attribute, or a scrape that
    raised that exception.  A failure of the model, be it an exception
    raised by the extraction call or an answer with no content, never
    makes it raise. *)
Theorem search_tool_raises_only_for_services q n tr e tr1 :
  _tool_search_tools self q n tr = (Raise e, tr1) ->
  (exists tr0 q' n', tr1 = tr0 ++ [EvSearch q' n' (Raise e)])
  \/ (exists tr0 q' n',
         tr1 = tr0 ++ [EvSearch q' n' (Ok None)]
         /\ e = AttributeError "web")
  \/ (exists tr0 url, tr1 = tr0 ++ [EvScrape url (Raise e)]).
Proof.
  rewrite search_tool_unfold. intros H.
  destruct (search_companies (services self) tr (article_query q) n)
    as [[data|]|e1|b1].
  - cbv zeta in H.
    destruct (collect_content self _ "" _)
      as [[all_content|e2|b2] tr2] eqn:Ec.
    + destruct (llm_completion (services self) tr2 _) as [[text|]|e3|b3];
        discriminate H.
    + inversion H; subst. right. right.
      eapply collect_content_raised_in_scrape. eassumption.
    + discriminate H.
  - inversion H; subst. right. left. eauto.
  - inversion H; subst. left. eauto.
  - discriminate H.
Qed.

Lemma search_tool_result_shape q n tr tools tr1 :
  _tool_search_tools self q n tr = (Ok tools, tr1) ->
  length tools <= 5
  /\ Forall (fun tool_name =>
               tool_name <> ""
               /\ PyStr.strip tool_name = tool_name
               /\ one_line tool_name = true) tools.
Proof.
  rewrite search_tool_unfold. intros H.
  destruct (search_companies (services self) tr (article_query q) n)
    as [[data|]|e1|b1]; try discriminate H.
  cbv zeta in H.
  destruct (collect_content self _ "" _) as [[all_content|e2|b2] tr2];
    try discriminate H.
  destruct (llm_completion (services self) tr2 _) as [[text|]|e3|b3];
    inversion H; subst.
  - apply tool_names_well_formed.
  - split; [simpl; lia|constructor].
  - split; [simpl; lia|constructor].
Qed.


(** X6.  The article text the search tool hands to the model is bounded
    by the number of web results: whenever the tool ends on a free-text
    model call, the messages of that call are the extraction messages for
    a text of at most 1502 characters per web result of the search. *)
Theorem search_tool_prompt_is_bounded q n tr data res tr1 tr0 msgs r :
  search_companies (services self) tr (article_query q) n = Ok (Some data) ->
  _tool_search_tools self q n tr = (res, tr1) ->
  tr1 = tr0 ++ [EvCompletion msgs r] ->
  exists all_content,
    msgs = extraction_messages self q all_content
    /\ String.length all_content <= 1502 * length (web_results data).
Proof.
  rewrite search_tool_unfold. intros Hs H Hlast. rewrite Hs in H.
  cbv zeta in H. subst tr1.
  fold (web_results data) in H.
  destruct (collect_content self (web_results data) "" _)
    as [[all_content|e2|b2] tr2] eqn:Ec.
  - destruct (collect_content_grows _ _ _ Ec) as [_ Hl]. simpl in Hl.
    exists all_content. split; [|exact Hl].
    destruct (llm_completion (services self) tr2 _) as [[text|]|e3|b3];
      injection H as _ Ht;
      apply app_inj_tail in Ht; destruct Ht as [_ Hev];
      injection Hev as Hm _; symmetry; exact Hm.
  - injection H as _ Ht.
    apply collect_content_raised_in_scrape in Ec.
    destruct Ec as (t & url & Hc). rewrite Hc in Ht.
    apply app_inj_tail in Ht. destruct Ht as [_ Hev]. discriminate Hev.
  - injection H as _ Ht.
    apply (@collect_content_interrupt self) in Ec.
    destruct Ec as (t & url & Hc). rewrite Hc in Ht.
    apply app_inj_tail in Ht. destruct Ht as [_ Hev]. discriminate Hev.
Qed.

(** X7.  The calls of the search tool: one search with the article
    query, then scrapes only, at most one per web result of the answer and
    none when the search gave no answer, then at most one free-text model
    call.  It never calls the structured model or the console. *)
Theorem search_tool_calls q n tr :
  exists r scrapes final,
    snd (_tool_search_tools self q n tr)
    = tr ++ [EvSearch (article_query q) n r] ++ scrapes ++ final
    /\ r = search_companies (services self) tr (article_query q) n
    /\ Forall (fun e => is_scrape_call e = true) scrapes
    /\ length scrapes
       <= match r with
          | Ok (Some data) => length (web_results data)
          | _ => 0
          end
    /\ (final = [] \/ exists msgs answer, final = [EvCompletion msgs answer]).
Proof.
  rewrite search_tool_unfold.
  destruct (search_companies (services self) tr (article_query q) n)
    as [[data|]|e1|b1] eqn:Es.
  - cbv zeta. fold (web_results data).
    destruct (collect_content_calls (web_results data) ""
                (tr ++ [EvSearch (article_query q) n (Ok (Some data))]))
      as (added & Ha & Hf & Hl).
    destruct (collect_content self (web_results data) "" _)
      as [[all_content|e2|b2] tr2]; simpl in Ha; subst tr2.
    + destruct (llm_completion (services self) _ _) as [[text|]|e3|b3];
        exists (Ok (Some data)), added; eexists;
        (split; [simpl; rewrite <- !app_assoc; reflexivity|]);
        (split; [reflexivity|split; [exact Hf|split; [exact Hl|]]]);
        right; eauto.
    + exists (Ok (Some data)), added, [].
      split; [simpl; rewrite <- !app_assoc, app_nil_r; reflexivity|].
      split; [reflexivity|split; [exact Hf|split; [exact Hl|now left]]].
    + exists (Ok (Some data)), added, [].
      split; [simpl; rewrite <- !app_assoc, app_nil_r; reflexivity|].
      split; [reflexivity|split; [exact Hf|split; [exact Hl|now left]]].
  - exists (Ok None), [], []. simpl.
    split; [reflexivity|split; [reflexivity|split; [constructor|]]].
    split; [lia|now left].
  - exists (Raise e1), [], []. simpl.
    split; [reflexivity|split; [reflexivity|split; [constructor|]]].
    split; [lia|now left].
  - exists (Interrupt b1), [], []. simpl.
    split; [reflexivity|split; [reflexivity|split; [constructor|]]].
    split; [lia|now left].
Qed.

(** *** The research tool *)

Lemma usable_url_nonempty answer url :
  usable_url answer = Some url -> url <> ""%string.
Proof.
  unfold usable_url.
  destruct answer as [[[[|result rest]|]]|]; try discriminate.
  destruct (result_url result) as [[|c u]|]; try discriminate.
  intros H. injection H as <-. discriminate.
Qed.

Lemma research_tool_unfold company_name tr :
  _tool_research_company self company_name tr
  = let q := (company_name ++ " official site")%string in
    match search_companies (services self) tr q 1%Z with
    | Raise e => (Raise e, tr ++ [EvSearch q 1%Z (Raise e)])
    | Interrupt b => (Interrupt b, tr ++ [EvSearch q 1%Z (Interrupt b)])
    | Ok answer =>
        let tr1 := tr ++ [EvSearch q 1%Z (Ok answer)] in
        match usable_url answer with
        | None => (Ok None, tr1)
        | Some url =>
            let company :=
              mkCompanyInfo company_name "" url None None [] [] None [] []
                None in
            match scrape_company_pages (services self) tr1 url with
            | Raise e => (Raise e, tr1 ++ [EvScrape url (Raise e)])
            | Interrupt b =>
                (Interrupt b, tr1 ++ [EvScrape url (Interrupt b)])
            | Ok scraped =>
                let tr2 := tr1 ++ [EvScrape url (Ok scraped)] in
                match scraped with
                | Some (mkScrapeData (Some (String c md))) =>
                    let msgs :=
                      [mkChat system_role (TOOL_ANALYSIS_SYSTEM (prompts self));
                       mkChat user_role
                         (tool_analysis_user (prompts self) company_name
                            (String c md))] in
                    let answer := llm_analysis (services self) tr2 msgs in
                    (match answer with
                     | Ok a => Ok (Some (populate company a))
                     | Raise _ => Ok (Some (populate company default_analysis))
                     | Interrupt b => Interrupt b
                     end,
                     tr2 ++ [EvAnalysis msgs answer])
                | _ => (Ok (Some company), tr2)
                end
            end
        end
    end.
Proof.
  unfold _tool_research_company, bind, call_search. cbv zeta.
  destruct (search_companies (services self) tr _ 1%Z) as [answer|e|b];
    try reflexivity.
  unfold usable_url.
  destruct answer as [[[[|result rest]|]]|]; try reflexivity.
  destruct (result_url result) as [[|c u]|]; try reflexivity.
  unfold call_scrape.
  destruct (scrape_company_pages (services self) _ (String c u))
    as [scraped|e|b]; try reflexivity.
  destruct scraped as [[[[|c' md]|]]|]; try reflexivity.
  unfold _analyze_company_content, try_except, call_analysis, ret.
  destruct (llm_analysis (services self) _ _); reflexivity.
Qed.

Lemma research_tool_record_name company_name tr company tr1 :
  _tool_research_company self company_name tr = (Ok (Some company), tr1) ->
  name company = company_name.
Proof.
  rewrite research_tool_unfold. cbv zeta. intros H.
  destruct (search_companies (services self) tr _ 1%Z) as [answer|e|b];
    try discriminate H.
  destruct (usable_url answer) as [url|]; [|discriminate H].
  destruct (scrape_company_pages (services self) _ url) as [scraped|e|b];
    try discriminate H.
  destruct scraped as [[[[|c' md]|]]|];
    try (inversion H; reflexivity).
  destruct (llm_analysis (services self) _ _); inversion H; reflexivity.
Qed.

(** X8.  A record the research tool returns carries the requested name
    and a non-empty website, and never competitors or a
    developer-experience rating; either no analysis went into it (no
    pricing model, empty description) or its pricing model is set. *)
Theorem research_tool_record company_name tr company tr1 :
  _tool_research_company self company_name tr = (Ok (Some company), tr1) ->
  name company = company_name
  /\ website company <> ""%string
  /\ competitors company = []
  /\ developer_experience_rating company = None
  /\ ((pricing_model company = None /\ description company = ""%string)
      \/ exists p, pricing_model company = Some p).
Proof.
  rewrite research_tool_unfold. cbv zeta. intros H.
  destruct (search_companies (services self) tr _ 1%Z) as [answer|e|b];
    try discriminate H.
  destruct (usable_url answer) as [url|] eqn:Eu; [|discriminate H].
  apply usable_url_nonempty in Eu.
  destruct (scrape_company_pages (services self) _ url) as [scraped|e|b];
    try discriminate H.
  destruct scraped as [[[[|c' md]|]]|];
    try (inversion H; subst; simpl;
         repeat split; try assumption; left; split; reflexivity).
  destruct (llm_analysis (services self) _ _); inversion H; subst; simpl;
    repeat split; try assumption; right; eexists; reflexivity.
Qed.

(** X9.  When the analysis call of the research tool fails, the company
    is still returned, with the default analysis: pricing model
    "Unknown", description "Analysis failed", both tri-state flags
    unknown and all lists empty. *)
Theorem research_tool_analysis_failure company_name tr res tr1 tr0 msgs e :
  _tool_research_company self company_name tr = (res, tr1) ->
  tr1 = tr0 ++ [EvAnalysis msgs (Raise e)] ->
  exists company,
    res = Ok (Some company)
    /\ name company = company_name
    /\ pricing_model company = Some "Unknown"%string
    /\ description company = "Analysis failed"%string
    /\ is_open_source company = None
    /\ api_available company = None
    /\ tech_stack company = []
    /\ language_support company = []
    /\ integration_capabilities company = [].
Proof.
  rewrite research_tool_unfold. cbv zeta. intros H Hlast. subst tr1.
  destruct (search_companies (services self) tr _ 1%Z) as [answer|e1|b1];
    try (injection H as _ Ht; apply app_inj_tail in Ht;
         destruct Ht as [_ Hev]; discriminate Hev).
  destruct (usable_url answer) as [url|].
  2:{ injection H as _ Ht. apply app_inj_tail in Ht.
      destruct Ht as [_ Hev]. discriminate Hev. }
  destruct (scrape_company_pages (services self) _ url) as [scraped|e2|b2];
    try (injection H as _ Ht; apply app_inj_tail in Ht;
         destruct Ht as [_ Hev]; discriminate Hev).
  destruct scraped as [[[[|c' md]|]]|];
    try (injection H as _ Ht; apply app_inj_tail in Ht;
         destruct Ht as [_ Hev]; discriminate Hev).
  injection H as Hr Ht. apply app_inj_tail in Ht. destruct Ht as [_ Hev].
  injection Hev as _ Ha. rewrite Ha in Hr. subst res.
  eexists. split; [reflexivity|]. simpl. repeat split; reflexivity.
Qed.

(** X10.  The calls of the research tool: one search for the name
    followed by " official site", asking for one result; then nothing
    more, or one scrape, or one scrape and one analysis call.  It raises
    only when the search or the scrape, its last call then, raised. *)
Theorem research_tool_calls company_name tr :
  exists r rest,
    snd (_tool_research_company self company_name tr)
    = tr ++ EvSearch (company_name ++ " official site")%string 1%Z r :: rest
    /\ (rest = []
        \/ (exists url page, rest = [EvScrape url page])
        \/ (exists url page msgs answer,
               rest = [EvScrape url page; EvAnalysis msgs answer]))
    /\ (forall e,
          fst (_tool_research_company self company_name tr) = Raise e ->
          (r = Raise e /\ rest = [])
          \/ exists url, rest = [EvScrape url (Raise e)]).
Proof.
  rewrite research_tool_unfold. cbv zeta.
  destruct (search_companies (services self) tr _ 1%Z) as [answer|e1|b1].
  2:{ exists (Raise e1), []. split; [reflexivity|]. split; [now left|].
      simpl. intros e He. injection He as <-. left. split; reflexivity. }
  2:{ exists (Interrupt b1), []. split; [reflexivity|]. split; [now left|].
      simpl. intros e He. discriminate He. }
  destruct (usable_url answer) as [url|].
  2:{ exists (Ok answer), []. split; [reflexivity|]. split; [now left|].
      simpl. intros e He. discriminate He. }
  destruct (scrape_company_pages (services self) _ url) as [scraped|e2|b2].
  2:{ exists (Ok answer), [EvScrape url (Raise e2)].
      split; [simpl; rewrite <- app_assoc; reflexivity|].
      split; [right; left; eauto|].
      simpl. intros e He. injection He as <-. right. eauto. }
  2:{ exists (Ok answer), [EvScrape url (Interrupt b2)].
      split; [simpl; rewrite <- app_assoc; reflexivity|].
      split; [right; left; eauto|].
      simpl. intros e He. discriminate He. }
  destruct scraped as [[[[|c' md]|]]|];
    try (exists (Ok answer); eexists;
         split; [simpl; rewrite <- app_assoc; reflexivity|];
         split; [right; left; eauto|];
         simpl; intros e He; discriminate He).
  exists (Ok answer). eexists.
  split; [simpl; rewrite <- !app_assoc; reflexivity|].
  split; [right; right; do 4 eexists; reflexivity|].
  simpl. intros e He.
  destruct (llm_analysis (services self) _ _); discriminate He.
Qed.


(** *** The research batch *)

Lemma subseq_nil_l {A : Type} (l : list A) : subseq [] l.
Proof. induction l; constructor; assumption. Qed.

Lemma research_loop_names (names : list string) :
  forall s count tr r s1 tr1,
    research_loop self names s count tr = (r, s1, tr1) ->
    exists extra,
      kept_up_to_research s s1 extra
      /\ subseq (map name extra) names
      /\ (forall n, r = Ok n -> n = count + length extra).
Proof.
  induction names as [|company_name rest IH]; simpl;
    intros s count tr r s1 tr1 H.
  - inversion H; subst. exists []. split; [apply kept_refl|].
    split; [constructor|]. intros n Hn. inversion Hn. simpl. lia.
  - destruct (_tool_research_company self company_name tr)
      as [[[company|]|e|b] tr'] eqn:E.
    + apply research_tool_record_name in E.
      apply IH in H. destruct H as (extra & K & Hsub & Hn).
      exists (company :: extra). split; [|split].
      * unfold kept_up_to_research in *. simpl in K.
        rewrite <- app_assoc in K. simpl in K. exact K.
      * simpl. rewrite E. now constructor.
      * intros n Hr. rewrite (Hn n Hr). simpl. lia.
    + apply IH in H. destruct H as (extra & K & Hsub & Hn).
      exists extra. split; [exact K|]. split; [now constructor|exact Hn].
    + inversion H; subst. exists []. split; [apply kept_refl|].
      split; [apply subseq_nil_l|]. intros n Hn. discriminate Hn.
    + inversion H; subst. exists []. split; [apply kept_refl|].
      split; [apply subseq_nil_l|]. intros n Hn. discriminate Hn.
Qed.

(** X11.  A research_company step appends to the researched list only
    records named after requested companies, in the order requested and
    at most one per request, whether the batch completes or fails
    part-way; when it completes it logs one tool turn that counts exactly
    the records appended against the number requested. *)
Theorem research_step_appends_requested s tr d args :
  llm_decision (services self) tr (_build_llm_messages self s) = Ok d ->
  decision_type d = research_company ->
  d_research_company d = Some args ->
  exists extra,
    researched_companies (fst (agent_decision_step self s tr))
    = researched_companies s ++ extra
    /\ subseq (map name extra) (company_names args)
    /\ (fst (fst (try_body self s tr)) = Ok tt ->
        exists t,
          conversation_history (fst (agent_decision_step self s tr))
          = conversation_history s
              ++ [mkMessage tool
                    (research_summary (length extra) (company_names args))
                    t]).
Proof.
  intros Hd Ht Hp.
  unfold agent_decision_step, try_body, call_decision. rewrite Hd.
  unfold dispatch. rewrite Ht, Hp.
  destruct (research_loop self (company_names args) s 0 _)
    as [[[n|e|b] s1] tr1] eqn:E;
    destruct (research_loop_names _ _ _ _ E) as (extra & K & Hsub & Hn);
    unfold kept_up_to_research in K;
    destruct K as (Kh & _ & _ & Kr & _);
    exists extra; simpl; (split; [exact Kr|split; [exact Hsub|]]).
  - intros _. rewrite (Hn n eq_refl), Kh. simpl. eauto.
  - intros Hr. discriminate Hr.
  - intros Hr. discriminate Hr.
Qed.

(** *** What a decision step and a whole conversation only add to *)

Ltac effect_with turns tools companies :=
  exists turns, tools, companies; simpl; rewrite ?app_nil_r;
  repeat match goal with |- _ /\ _ => split end;
  try reflexivity; try (simpl; lia); try discriminate;
  try (repeat (constructor; [discriminate|]); constructor).

Lemma dispatch_appends d s tr r s1 tr1 :
  dispatch self d s tr = (r, s1, tr1) ->
  exists turns tools companies,
    conversation_history s1 = conversation_history s ++ turns
    /\ length turns <= match r with Ok _ => 2 | _ => 1 end
    /\ Forall (fun m => role m <> user) turns
    /\ extracted_tools s1 = extracted_tools s ++ tools
    /\ length tools <= 5
    /\ researched_companies s1 = researched_companies s ++ companies
    /\ current_query s1 = current_query s
    /\ pending_action s1 = pending_action s.
Proof.
  unfold dispatch. intros H.
  destruct (decision_type d).
  - destruct (message d) as [m|]; inversion H; subst.
    + effect_with [mkMessage assistant m (now (services self) tr1)]
        (@nil string) (@nil CompanyInfo).
    + effect_with (@nil Message) (@nil string) (@nil CompanyInfo).
  - destruct (message d) as [m|]; inversion H; subst.
    + effect_with [mkMessage assistant m (now (services self) tr1)]
        (@nil string) (@nil CompanyInfo).
    + effect_with (@nil Message) (@nil string) (@nil CompanyInfo).
  - destruct (d_search_tools d) as [args|].
    + destruct (_tool_search_tools self (query args) (num_results args) tr)
        as [[tools|e'|b] tr'] eqn:E; inversion H; subst.
      * destruct (search_tool_result_shape _ _ _ E) as [Hlen _].
        exists [mkMessage tool
                  ("Found tools: " ++ PyStr.join ", " tools)%string
                  (now (services self) tr1)], tools, (@nil CompanyInfo).
        simpl. rewrite ?app_nil_r.
        repeat match goal with |- _ /\ _ => split end;
          try reflexivity; try (simpl; lia); try discriminate;
          try assumption.
        repeat (constructor; [discriminate|]); constructor.
      * effect_with (@nil Message) (@nil string) (@nil CompanyInfo).
      * effect_with (@nil Message) (@nil string) (@nil CompanyInfo).
    + inversion H; subst.
      effect_with (@nil Message) (@nil string) (@nil CompanyInfo).
  - destruct (d_research_company d) as [args|].
    + destruct (research_loop self (company_names args) s 0 tr)
        as [[[n|e'|b] s'] tr'] eqn:E; inversion H; subst;
        apply research_loop_keeps in E; destruct E as [extra [K _]];
        unfold kept_up_to_research in K;
        destruct K as (Kh & Kq & Kt & Kr & Kp & _).
      * exists [mkMessage tool
                  (research_summary n (company_names args))
                  (now (services self) tr1)], (@nil string), extra.
        simpl. rewrite ?app_nil_r, Kh.
        repeat match goal with |- _ /\ _ => split end;
          try reflexivity; try (simpl; lia); try discriminate;
          try assumption.
        repeat (constructor; [discriminate|]); constructor.
      * exists (@nil Message), (@nil string), extra.
        simpl. rewrite ?app_nil_r.
        repeat match goal with |- _ /\ _ => split end;
          try reflexivity; try (simpl; lia); try assumption.
        constructor.
      * exists (@nil Message), (@nil string), extra.
        simpl. rewrite ?app_nil_r.
        repeat match goal with |- _ /\ _ => split end;
          try reflexivity; try (simpl; lia); try assumption.
        constructor.
    + inversion H; subst.
      effect_with (@nil Message) (@nil string) (@nil CompanyInfo).
  - destruct (d_analyze_companies d).
    + destruct (_tool_analyze_companies self s tr)
        as [[[text|]|e'|b] tr'];
        inversion H; subst.
      * exists [mkMessage tool "Analysis complete" (now (services self) tr1);
                mkMessage assistant text (now (services self) tr1)],
          (@nil string), (@nil CompanyInfo).
        simpl. rewrite ?app_nil_r, <- app_assoc.
        repeat match goal with |- _ /\ _ => split end;
          try reflexivity; try (simpl; lia); try discriminate.
        repeat (constructor; [discriminate|]); constructor.
      * effect_with
          [mkMessage tool "Analysis complete" (now (services self) tr1)]
          (@nil string) (@nil CompanyInfo).
      * effect_with (@nil Message) (@nil string) (@nil CompanyInfo).
      * effect_with (@nil Message) (@nil string) (@nil CompanyInfo).
    + inversion H; subst.
      effect_with (@nil Message) (@nil string) (@nil CompanyInfo).
  - destruct (d_end d); inversion H; subst;
      effect_with (@nil Message) (@nil string) (@nil CompanyInfo).
Qed.

Lemma step_appends s tr :
  exists turns tools companies,
    conversation_history (fst (agent_decision_step self s tr))
    = conversation_history s ++ turns
    /\ length turns <= 2
    /\ Forall (fun m => role m <> user) turns
    /\ extracted_tools (fst (agent_decision_step self s tr))
       = extracted_tools s ++ tools
    /\ length tools <= 5
    /\ researched_companies (fst (agent_decision_step self s tr))
       = researched_companies s ++ companies
    /\ current_query (fst (agent_decision_step self s tr)) = current_query s
    /\ pending_action (fst (agent_decision_step self s tr))
       = pending_action s.
Proof.
  unfold agent_decision_step, try_body.
  destruct (call_decision self (_build_llm_messages self s) tr)
    as [[d|e|b] tr0].
  - destruct (dispatch self d s tr0) as [[[u|e|b] s1] tr1] eqn:E;
      destruct (dispatch_appends _ _ _ E)
        as (turns & tools & companies & Hh & Hl & Hf & Ht & Htl
            & Hc & Hq & Hp).
    + exists turns, tools, companies. simpl. tauto.
    + exists (turns ++ [mkMessage assistant apology (now (services self) tr1)]),
        tools, companies.
      simpl. rewrite Hh, <- app_assoc.
      repeat match goal with |- _ /\ _ => split end;
        try reflexivity; try assumption.
      * rewrite length_app. simpl. lia.
      * apply Forall_app. split; [exact Hf|].
        repeat (constructor; [discriminate|]); constructor.
    + exists turns, tools, companies. simpl.
      repeat match goal with |- _ /\ _ => split end;
        try assumption. lia.
  - effect_with [mkMessage assistant apology (now (services self) tr0)]
      (@nil string) (@nil CompanyInfo).
  - effect_with (@nil Message) (@nil string) (@nil CompanyInfo).
Qed.


(** X12.  A decision step only appends to the state: at most two turns to
    the history, none of them a user turn; at most five tool names to the
    extracted tools; records to the researched companies.  Nothing is
    removed, reordered or deduplicated, and the current query and the
    pending action are never written. *)
Theorem decision_step_only_appends s tr :
  exists turns tools companies,
    conversation_history (fst (agent_decision_step self s tr))
    = conversation_history s ++ turns
    /\ length turns <= 2
    /\ Forall (fun m => role m <> user) turns
    /\ extracted_tools (fst (agent_decision_step self s tr))
       = extracted_tools s ++ tools
    /\ length tools <= 5
    /\ researched_companies (fst (agent_decision_step self s tr))
       = researched_companies s ++ companies
    /\ current_query (fst (agent_decision_step self s tr)) = current_query s
    /\ pending_action (fst (agent_decision_step self s tr))
       = pending_action s.
Proof. exact (step_appends s tr). Qed.

Lemma loop_only_appends fuel :
  forall s tr s' tr',
    conversation_loop self fuel s tr = Returned s' tr' ->
    (exists turns, conversation_history s' = conversation_history s ++ turns)
    /\ (exists tools, extracted_tools s' = extracted_tools s ++ tools)
    /\ (exists companies,
          researched_companies s' = researched_companies s ++ companies)
    /\ current_query s' = current_query s
    /\ pending_action s' = pending_action s.
Proof.
  assert (Hsame : forall s : AgentState,
             (exists turns,
                 conversation_history s = conversation_history s ++ turns)
             /\ (exists tools, extracted_tools s = extracted_tools s ++ tools)
             /\ (exists companies,
                   researched_companies s = researched_companies s ++ companies)
             /\ current_query s = current_query s
             /\ pending_action s = pending_action s).
  { intros s. repeat split; exists []; now rewrite app_nil_r. }
  induction fuel as [|fuel IH]; intros s tr s' tr' H.
  - simpl in H. destruct (conversation_complete s); [|discriminate].
    inversion H; subst. apply Hsame.
  - rewrite loop_unfold in H.
    destruct (conversation_complete s).
    { inversion H; subst. apply Hsame. }
    destruct (step_appends s tr)
      as (turns & tools & companies & Hh & _ & _ & Ht & _ & Hc & Hq & Hp).
    destruct (agent_decision_step self s tr) as [s1 tr1].
    cbn [fst] in Hh, Ht, Hc, Hq, Hp.
    destruct (step_interrupted self s tr) as [b|]; [discriminate H|].
    destruct (awaiting_user_input s1 && negb (conversation_complete s1))%bool.
    + destruct (call_input self tr1) as [[line|e|b] tr2];
        [|discriminate|discriminate].
      destruct (is_exit_word (PyStr.lower (PyStr.strip line))).
      * inversion H; subst. simpl. rewrite Hh, Ht, Hc, Hq, Hp.
        repeat split; eauto.
      * apply IH in H. simpl in H.
        destruct H as ([turns' Hh'] & [tools' Ht'] & [comps' Hc'] & Hq' & Hp').
        rewrite Hh', Ht', Hc', Hq', Hp', Hh, Ht, Hc, Hq, Hp.
        rewrite <- !app_assoc. repeat split; eauto.
    + apply IH in H.
      destruct H as ([turns' Hh'] & [tools' Ht'] & [comps' Hc'] & Hq' & Hp').
      rewrite Hh', Ht', Hc', Hq', Hp', Hh, Ht, Hc, Hq, Hp.
      rewrite <- !app_assoc. repeat split; eauto.
Qed.

(** X13.  The state a conversation returns is complete; its query is
    still the initial message, which is also still its first turn, a user
    turn; and it has no pending action.  Turns are only ever added after
    the first one. *)
Theorem conversation_result fuel initial_message tr s' tr' :
  run_conversation self fuel initial_message tr = Returned s' tr' ->
  conversation_complete s' = true
  /\ current_query s' = Some initial_message
  /\ pending_action s' = None
  /\ exists later,
       conversation_history s'
       = mkMessage user initial_message (now (services self) tr) :: later.
Proof.
  unfold run_conversation. intros H.
  destruct (loop_returns_complete _ _ _ _ H) as [Hdone _].
  destruct (loop_only_appends _ _ _ H) as ([turns Hh] & _ & _ & Hq & Hp).
  split; [exact Hdone|]. split; [exact Hq|]. split; [exact Hp|].
  exists turns. exact Hh.
Qed.

(** X14.  A decision that comes without the payload its type names is
    answered by the apology alone: the step calls nothing after the
    decision call, and returns, the state it was entered with plus one
    assistant turn carrying the apology and the waiting flag set. *)
Theorem malformed_decision_gets_apology s tr d :
  llm_decision (services self) tr (_build_llm_messages self s) = Ok d ->
  well_formed d = false ->
  agent_decision_step self s tr
  = (set_awaiting true
       (append_message
          (mkMessage assistant apology
             (now (services self)
                (tr ++ [EvDecision (_build_llm_messages self s) (Ok d)])))
          s),
     tr ++ [EvDecision (_build_llm_messages self s) (Ok d)])
  /\ step_interrupted self s tr = None.
Proof.
  intros Hd Hw.
  unfold agent_decision_step, step_interrupted, try_body, call_decision.
  rewrite Hd.
  unfold dispatch. unfold well_formed in Hw.
  destruct (decision_type d).
  - destruct (message d); [discriminate Hw|split; reflexivity].
  - destruct (message d); [discriminate Hw|split; reflexivity].
  - destruct (d_search_tools d); [discriminate Hw|split; reflexivity].
  - destruct (d_research_company d); [discriminate Hw|split; reflexivity].
  - destruct (d_analyze_companies d); [discriminate Hw|split; reflexivity].
  - destruct (d_end d); [discriminate Hw|split; reflexivity].
Qed.

(** X15.  An end decision that carries its call ends the run at once,
    whatever the waiting flag was: the loop returns the state it had with
    only the completion flag set, no turn is appended, the console is not
    read and the decision call is the only call made. *)
Theorem end_decision_returns_at_once fuel s tr d :
  conversation_complete s = false ->
  llm_decision (services self) tr (_build_llm_messages self s) = Ok d ->
  decision_type d = end_ ->
  d_end d <> None ->
  conversation_loop self (S fuel) s tr
  = Returned (set_complete true s)
      (tr ++ [EvDecision (_build_llm_messages self s) (Ok d)]).
Proof.
  intros Hc Hd Ht Hp.
  rewrite loop_unfold, Hc.
  unfold agent_decision_step, step_interrupted, try_body, call_decision.
  rewrite Hd.
  unfold dispatch. rewrite Ht.
  destruct (d_end d) as [call|]; [|congruence].
  cbn [set_complete awaiting_user_input conversation_complete].
  rewrite andb_false_r.
  apply loop_stops_when_complete. reflexivity.
Qed.

Lemma search_tool_interrupt_last q n tr b tr1 :
  _tool_search_tools self q n tr = (Interrupt b, tr1) ->
  exists tr0 call, tr1 = tr0 ++ [call] /\ call_interrupt call = Some b.
Proof.
  rewrite search_tool_unfold. intros H.
  destruct (search_companies (services self) tr (article_query q) n)
    as [[data|]|e1|b1]; try discriminate H.
  - cbv zeta in H.
    destruct (collect_content self _ "" _)
      as [[all_content|e2|b2] tr2] eqn:Ec; try discriminate H.
    + destruct (llm_completion (services self) tr2 _) as [[text|]|e3|b3];
        try discriminate H.
      inversion H; subst. eexists. eexists. split; reflexivity.
    + inversion H; subst.
      apply (@collect_content_interrupt self) in Ec.
      destruct Ec as (t & url & Hc).
      exists t, (EvScrape url (Interrupt b)). split; [exact Hc|reflexivity].
  - inversion H; subst. eexists. eexists. split; reflexivity.
Qed.

Lemma research_tool_interrupt_last company_name tr b tr1 :
  _tool_research_company self company_name tr = (Interrupt b, tr1) ->
  exists tr0 call, tr1 = tr0 ++ [call] /\ call_interrupt call = Some b.
Proof.
  rewrite research_tool_unfold. cbv zeta. intros H.
  destruct (search_companies (services self) tr _ 1%Z) as [answer|e1|b1];
    try discriminate H.
  2:{ inversion H; subst. eexists. eexists. split; reflexivity. }
  destruct (usable_url answer) as [url|]; [|discriminate H].
  destruct (scrape_company_pages (services self) _ url) as [scraped|e2|b2];
    try discriminate H.
  2:{ inversion H; subst. eexists. eexists. split; reflexivity. }
  destruct scraped as [[[[|c' md]|]]|]; try discriminate H.
  destruct (llm_analysis (services self) _ _) as [a|e3|b3] eqn:Ea;
    try discriminate H.
  inversion H; subst. eexists. eexists. split; [reflexivity|].
  simpl. reflexivity.
Qed.

Lemma research_loop_interrupt_last (names : list string) :
  forall s count tr b s1 tr1,
    research_loop self names s count tr = (Interrupt b, s1, tr1) ->
    exists tr0 call, tr1 = tr0 ++ [call] /\ call_interrupt call = Some b.
Proof.
  induction names as [|company_name rest IH]; simpl;
    intros s count tr b s1 tr1 H.
  - discriminate H.
  - destruct (_tool_research_company self company_name tr)
      as [[[company|]|e|b'] tr'] eqn:E.
    + eapply IH. eassumption.
    + eapply IH. eassumption.
    + discriminate H.
    + inversion H; subst. eapply research_tool_interrupt_last. eassumption.
Qed.

Lemma dispatch_interrupt_last d s tr b s1 tr1 :
  dispatch self d s tr = (Interrupt b, s1, tr1) ->
  exists tr0 call, tr1 = tr0 ++ [call] /\ call_interrupt call = Some b.
Proof.
  unfold dispatch. intros H.
  destruct (decision_type d).
  - destruct (message d); discriminate H.
  - destruct (message d); discriminate H.
  - destruct (d_search_tools d) as [args|]; [|discriminate H].
    destruct (_tool_search_tools self (query args) (num_results args) tr)
      as [[tools|e'|b'] tr'] eqn:E;
      inversion H; subst.
    eapply search_tool_interrupt_last. eassumption.
  - destruct (d_research_company d) as [args|]; [|discriminate H].
    destruct (research_loop self (company_names args) s 0 tr)
      as [[[n|e'|b'] s'] tr'] eqn:E;
      inversion H; subst.
    eapply research_loop_interrupt_last. eassumption.
  - destruct (d_analyze_companies d); [|discriminate H].
    unfold _tool_analyze_companies in H.
    destruct (researched_companies s); [discriminate H|].
    unfold call_completion in H. cbv zeta in H.
    destruct (llm_completion (services self) tr _) as [[text|]|e'|b'];
      inversion H; subst.
    eexists. eexists. split; reflexivity.
  - destruct (d_end d); discriminate H.
Qed.

Lemma step_interrupt_last s tr b :
  step_interrupted self s tr = Some b ->
  exists tr0 call,
    snd (agent_decision_step self s tr) = tr0 ++ [call]
    /\ call_interrupt call = Some b.
Proof.
  unfold step_interrupted, agent_decision_step.
  destruct (try_body self s tr) as [[[u|e|b'] s1] tr1] eqn:E;
    try discriminate.
  intros H. injection H as <-. cbn [snd].
  unfold try_body, call_decision in E. cbv zeta in E.
  destruct (llm_decision (services self) tr (_build_llm_messages self s))
    as [d|e'|b0].
  - eapply dispatch_interrupt_last. eassumption.
  - discriminate E.
  - inversion E; subst. eexists. eexists. split; reflexivity.
Qed.

(** X16.  What ends a conversation other than its return.  An
    [Exception] leaves the conversation loop only from the console: the
    last call on the trace is then a console read that raised it, every
    [Exception] raised inside a decision step having been caught there.
    An exception outside [Exception] is caught nowhere: it leaves the loop
    from the call it was raised in, whichever it is, and that call is the
    last on the trace. *)
Theorem conversation_ends_in_the_failing_call fuel :
  forall s tr,
    (forall e tr',
        conversation_loop self fuel s tr = Escaped e tr' ->
        exists tr0, tr' = tr0 ++ [EvInput (Raise e)])
    /\ (forall b tr',
          conversation_loop self fuel s tr = Interrupted b tr' ->
          exists tr0 call,
            tr' = tr0 ++ [call] /\ call_interrupt call = Some b).
Proof.
  induction fuel as [|fuel IH]; intros s tr.
  - simpl. destruct (conversation_complete s); split; intros; discriminate.
  - rewrite loop_unfold.
    destruct (conversation_complete s); [split; intros; discriminate|].
    pose proof (@step_interrupt_last s tr) as Hlast.
    destruct (agent_decision_step self s tr) as [s1 tr1].
    cbn [snd] in Hlast.
    destruct (step_interrupted self s tr) as [b0|].
    { split; [intros; discriminate|].
      intros b tr' H. inversion H; subst. apply Hlast. reflexivity. }
    destruct (awaiting_user_input s1 && negb (conversation_complete s1))%bool.
    + unfold call_input.
      destruct (console_input (services self) tr1) as [line|e'|b'] eqn:Ei.
      * destruct (is_exit_word (PyStr.lower (PyStr.strip line)));
          [split; intros; discriminate|]. apply IH.
      * split; [|intros; discriminate].
        intros e tr' H. inversion H; subst. eauto.
      * split; [intros; discriminate|].
        intros b tr' H. inversion H; subst.
        eexists. eexists. split; reflexivity.
    + apply IH.
Qed.

(** *** The calls of a decision step *)

(** Neither a structured decision call nor a console read. *)
Lemma search_tool_adds q n tr :
  exists added,
    snd (_tool_search_tools self q n tr) = tr ++ added
    /\ Forall (fun e => is_decision_call e = false
                        /\ is_input_call e = false) added.
Proof.
  rewrite search_tool_unfold.
  destruct (search_companies (services self) tr (article_query q) n)
    as [[data|]|e1|b1].
  - cbv zeta.
    destruct (collect_content_calls
                (match web data with Some l => l | None => [] end) ""
                (tr ++ [EvSearch (article_query q) n (Ok (Some data))]))
      as (added & Ha & Hf & _).
    assert (Hf' : Forall (fun e => is_decision_call e = false
                                  /\ is_input_call e = false) added).
    { eapply Forall_impl; [|exact Hf].
      intros [] He; try discriminate He. split; reflexivity. }
    destruct (collect_content self _ "" _) as [[all_content|e2|b2] tr2];
      simpl in Ha; subst tr2.
    + destruct (llm_completion (services self) _ _) as [[text|]|e3|b3]; simpl;
        eexists; (split; [rewrite <- !app_assoc; reflexivity|]);
        (constructor; [split; reflexivity|]);
        (apply Forall_app; split; [exact Hf'|]);
        (constructor; [split; reflexivity|constructor]).
    + simpl. eexists. split; [rewrite <- !app_assoc; reflexivity|].
      constructor; [split; reflexivity|exact Hf'].
    + simpl. eexists. split; [rewrite <- !app_assoc; reflexivity|].
      constructor; [split; reflexivity|exact Hf'].
  - simpl. eexists. split; [reflexivity|].
    constructor; [split; reflexivity|constructor].
  - simpl. eexists. split; [reflexivity|].
    constructor; [split; reflexivity|constructor].
  - simpl. eexists. split; [reflexivity|].
    constructor; [split; reflexivity|constructor].
Qed.

Lemma research_tool_adds company_name tr :
  exists added,
    snd (_tool_research_company self company_name tr) = tr ++ added
    /\ Forall (fun e => is_decision_call e = false
                        /\ is_input_call e = false) added.
Proof.
  rewrite research_tool_unfold. cbv zeta.
  destruct (search_companies (services self) tr _ 1%Z) as [answer|e1|b1].
  2:{ eexists. split; [reflexivity|].
      constructor; [split; reflexivity|constructor]. }
  2:{ eexists. split; [reflexivity|].
      constructor; [split; reflexivity|constructor]. }
  destruct (usable_url answer) as [url|].
  2:{ eexists. split; [reflexivity|].
      constructor; [split; reflexivity|constructor]. }
  destruct (scrape_company_pages (services self) _ url) as [scraped|e2|b2].
  2:{ eexists. split; [simpl; rewrite <- !app_assoc; reflexivity|].
      repeat (constructor; [split; reflexivity|]). constructor. }
  2:{ eexists. split; [simpl; rewrite <- !app_assoc; reflexivity|].
      repeat (constructor; [split; reflexivity|]). constructor. }
  destruct scraped as [[[[|c' md]|]]|];
    eexists; (split; [simpl; rewrite <- !app_assoc; reflexivity|]);
    repeat (constructor; [split; reflexivity|]); constructor.
Qed.

Lemma research_loop_adds (names : list string) :
  forall s count tr, exists added,
    snd (research_loop self names s count tr) = tr ++ added
    /\ Forall (fun e => is_decision_call e = false
                        /\ is_input_call e = false) added.
Proof.
  induction names as [|company_name rest IH]; intros s count tr; simpl.
  - exists []. rewrite app_nil_r. split; [reflexivity|constructor].
  - destruct (research_tool_adds company_name tr) as (added & Ha & Hf).
    destruct (_tool_research_company self company_name tr)
      as [[[company|]|e|b] tr1]; simpl in Ha; subst tr1.
    + destruct (IH (set_researched (researched_companies s ++ [company]) s)
                  (S count) (tr ++ added)) as (more & Hm & Hfm).
      exists (added ++ more). rewrite Hm, app_assoc.
      split; [reflexivity|]. apply Forall_app. split; assumption.
    + destruct (IH s count (tr ++ added)) as (more & Hm & Hfm).
      exists (added ++ more). rewrite Hm, app_assoc.
      split; [reflexivity|]. apply Forall_app. split; assumption.
    + exists added. split; [reflexivity|assumption].
    + exists added. split; [reflexivity|assumption].
Qed.

Lemma dispatch_adds d s tr :
  exists added,
    snd (dispatch self d s tr) = tr ++ added
    /\ Forall (fun e => is_decision_call e = false
                        /\ is_input_call e = false) added.
Proof.
  assert (Hnone : exists added : Trace,
             tr = tr ++ added
             /\ Forall (fun e => is_decision_call e = false
                                 /\ is_input_call e = false) added).
  { exists []. rewrite app_nil_r. split; [reflexivity|constructor]. }
  unfold dispatch.
  destruct (decision_type d).
  - destruct (message d); exact Hnone.
  - destruct (message d); exact Hnone.
  - destruct (d_search_tools d) as [args|]; [|exact Hnone].
    destruct (search_tool_adds (query args) (num_results args) tr)
      as (added & Ha & Hf).
    destruct (_tool_search_tools self (query args) (num_results args) tr)
      as [[tools|e|b] tr1]; simpl in Ha; subst tr1;
      exists added; (split; [reflexivity|exact Hf]).
  - destruct (d_research_company d) as [args|]; [|exact Hnone].
    destruct (research_loop_adds (company_names args) s 0 tr)
      as (added & Ha & Hf).
    destruct (research_loop self (company_names args) s 0 tr)
      as [[[n|e|b] s1] tr1]; simpl in Ha; subst tr1;
      exists added; (split; [reflexivity|exact Hf]).
  - destruct (d_analyze_companies d); [|exact Hnone].
    unfold _tool_analyze_companies.
    destruct (researched_companies s); [exact Hnone|].
    unfold call_completion.
    destruct (llm_completion (services self) tr _) as [[text|]|e|b]; simpl;
      eexists; (split; [reflexivity|]);
      (constructor; [split; reflexivity|constructor]).
  - destruct (d_end d); exact Hnone.
Qed.

Lemma step_calls s tr :
  exists rest,
    snd (agent_decision_step self s tr)
    = tr ++ EvDecision (_build_llm_messages self s)
              (llm_decision (services self) tr (_build_llm_messages self s))
           :: rest
    /\ Forall (fun e => is_decision_call e = false
                        /\ is_input_call e = false) rest.
Proof.
  unfold agent_decision_step, try_body, call_decision.
  destruct (llm_decision (services self) tr (_build_llm_messages self s))
    as [d|e|b] eqn:Ed.
  - destruct (dispatch_adds d s
                (tr ++ [EvDecision (_build_llm_messages self s) (Ok d)]))
      as (added & Ha & Hf).
    destruct (dispatch self d s _) as [[[u|e|b] s1] tr1]; simpl in Ha;
      subst tr1; exists added; simpl; rewrite <- app_assoc;
      (split; [reflexivity|exact Hf]).
  - exists []. split; [reflexivity|constructor].
  - exists []. split; [reflexivity|constructor].
Qed.

(** X17.  Every decision step makes exactly one structured decision call,
    as its first call and with the messages rebuilt from the state it was
    entered with.  Whatever it calls after that is a search, a scrape, an
    analysis or a free-text model call: never a second decision call and
    never the console. *)
Theorem decision_step_calls s tr :
  exists rest,
    snd (agent_decision_step self s tr)
    = tr ++ EvDecision (_build_llm_messages self s)
              (llm_decision (services self) tr (_build_llm_messages self s))
           :: rest
    /\ Forall (fun e => is_decision_call e = false
                        /\ is_input_call e = false) rest.
Proof. exact (step_calls s tr). Qed.

(** X18.  An analyze_companies decision that carries its call, taken with
    at least one researched company, makes one free-text model call with
    the recommendation messages.  When the call returns a text, the text
    becomes the analysis and is appended as an assistant turn after a tool
    turn "Analysis complete", with the waiting flag set.  When the call
    returns with no content, the analysis is overwritten with [None], the
    tool turn "Analysis complete" is logged all the same, and the apology
    follows it.  When the call raises, the analysis is left as it was and
    the apology alone is appended.  In these three cases the step returns;
    when the call is left by an exception outside [Exception], so is the
    step, with the state as it found it. *)
Theorem analyze_decision_with_research s tr d :
  researched_companies s <> [] ->
  llm_decision (services self) tr (_build_llm_messages self s) = Ok d ->
  decision_type d = analyze_companies ->
  d_analyze_companies d <> None ->
  let tr1 := tr ++ [EvDecision (_build_llm_messages self s) (Ok d)] in
  let answer :=
    llm_completion (services self) tr1 (recommendation_messages self s) in
  let tr2 := tr1 ++ [EvCompletion (recommendation_messages self s) answer] in
  agent_decision_step self s tr
  = (match answer with
     | Ok (Some text) =>
         mkAgentState
           (conversation_history s
              ++ [mkMessage tool "Analysis complete" (now (services self) tr2);
                  mkMessage assistant text (now (services self) tr2)])
           (current_query s) (extracted_tools s) (researched_companies s)
           (pending_action s) true (Some text) (conversation_complete s)
     | Ok None =>
         mkAgentState
           (conversation_history s
              ++ [mkMessage tool "Analysis complete" (now (services self) tr2);
                  mkMessage assistant apology (now (services self) tr2)])
           (current_query s) (extracted_tools s) (researched_companies s)
           (pending_action s) true None (conversation_complete s)
     | Raise _ =>
         mkAgentState
           (conversation_history s
              ++ [mkMessage assistant apology (now (services self) tr2)])
           (current_query s) (extracted_tools s) (researched_companies s)
           (pending_action s) true (analysis s) (conversation_complete s)
     | Interrupt _ => s
     end,
     tr2)
  /\ step_interrupted self s tr = interrupt_of answer.
Proof.
  intros Hr Hd Ht Hp. cbv zeta.
  unfold agent_decision_step, step_interrupted, try_body, call_decision.
  rewrite Hd.
  unfold dispatch. rewrite Ht.
  destruct (d_analyze_companies d) as [call|]; [|congruence].
  unfold _tool_analyze_companies.
  destruct (researched_companies s) as [|c cs] eqn:Er; [congruence|].
  unfold call_completion.
  destruct (llm_completion (services self) _ _) as [[text|]|e|b];
    (split; [|reflexivity]).
  - unfold set_awaiting, append_message, set_history, set_analysis. cbn.
    rewrite Er, <- (app_assoc (conversation_history s)). reflexivity.
  - unfold on_error, set_awaiting, append_message, set_history, set_analysis.
    cbn. rewrite Er, <- (app_assoc (conversation_history s)). reflexivity.
  - unfold on_error, set_awaiting, append_message, set_history. cbn.
    rewrite Er. reflexivity.
  - reflexivity.
Qed.

(** X19.  A search_tools step whose tool returns itself returns, having
    appended the returned names after the tools already extracted,
    repeats included, and logged one tool turn "Found tools: " followed by
    the names joined by ", "; nothing else in the state changes, the
    waiting flag included. *)
Theorem search_step_effect s tr d args tools tr2 :
  llm_decision (services self) tr (_build_llm_messages self s) = Ok d ->
  decision_type d = search_tools ->
  d_search_tools d = Some args ->
  _tool_search_tools self (query args) (num_results args)
    (tr ++ [EvDecision (_build_llm_messages self s) (Ok d)])
  = (Ok tools, tr2) ->
  agent_decision_step self s tr
  = (mkAgentState
       (conversation_history s
          ++ [mkMessage tool ("Found tools: " ++ PyStr.join ", " tools)%string
                (now (services self) tr2)])
       (current_query s) (extracted_tools s ++ tools)
       (researched_companies s) (pending_action s) (awaiting_user_input s)
       (analysis s) (conversation_complete s),
     tr2)
  /\ length tools <= 5
  /\ step_interrupted self s tr = None.
Proof.
  intros Hd Ht Hp Htool.
  split; [|split; [apply (search_tool_result_shape _ _ _ Htool)|]].
  - unfold agent_decision_step, try_body, call_decision. rewrite Hd.
    unfold dispatch. rewrite Ht, Hp, Htool. reflexivity.
  - unfold step_interrupted, try_body, call_decision. rewrite Hd.
    unfold dispatch. rewrite Ht, Hp, Htool. reflexivity.
Qed.

(** *** The calls of a whole conversation *)

Lemma count_calls_app kind (a b : Trace) :
  count_calls kind (a ++ b) = count_calls kind a + count_calls kind b.
Proof. unfold count_calls. now rewrite filter_app, length_app. Qed.

Lemma count_calls_none kind (added : Trace) :
  Forall (fun e => kind e = false) added -> count_calls kind added = 0.
Proof.
  unfold count_calls. induction 1 as [|e l He _ IH]; simpl; [reflexivity|].
  now rewrite He.
Qed.

Lemma step_call_counts s tr :
  exists added,
    snd (agent_decision_step self s tr) = tr ++ added
    /\ count_calls is_decision_call added = 1
    /\ count_calls is_input_call added = 0.
Proof.
  destruct (step_calls s tr) as (rest & Hr & Hf).
  eexists. split; [exact Hr|].
  unfold count_calls. simpl.
  fold (count_calls is_decision_call rest).
  fold (count_calls is_input_call rest).
  split.
  - rewrite count_calls_none; [reflexivity|].
    eapply Forall_impl; [|exact Hf]. intros e [He _]. exact He.
  - apply count_calls_none.
    eapply Forall_impl; [|exact Hf]. intros e [_ He]. exact He.
Qed.

Lemma loop_call_counts fuel :
  forall s tr s' tr',
    conversation_loop self fuel s tr = Returned s' tr' ->
    exists added,
      tr' = tr ++ added
      /\ count_calls is_input_call added
         <= count_calls is_decision_call added.
Proof.
  induction fuel as [|fuel IH]; intros s tr s' tr' H.
  - simpl in H. destruct (conversation_complete s); [|discriminate].
    inversion H; subst. exists []. rewrite app_nil_r. split; [reflexivity|].
    reflexivity.
  - rewrite loop_unfold in H.
    destruct (conversation_complete s).
    { inversion H; subst. exists []. rewrite app_nil_r.
      split; reflexivity. }
    destruct (step_call_counts s tr) as (added & Ha & Hd & Hi).
    destruct (agent_decision_step self s tr) as [s1 tr1].
    cbn [snd] in Ha. subst tr1.
    destruct (step_interrupted self s tr) as [b|]; [discriminate H|].
    destruct (awaiting_user_input s1 && negb (conversation_complete s1))%bool.
    + unfold call_input in H.
      destruct (console_input (services self) (tr ++ added)) as [line|e|b];
        [|discriminate|discriminate].
      destruct (is_exit_word (PyStr.lower (PyStr.strip line))).
      * inversion H; subst. exists (added ++ [EvInput (Ok line)]).
        rewrite app_assoc. split; [reflexivity|].
        rewrite !count_calls_app, Hd, Hi.
        change (count_calls is_input_call [EvInput (Ok line)]) with 1.
        change (count_calls is_decision_call [EvInput (Ok line)]) with 0.
        lia.
      * apply IH in H. destruct H as (more & Hm & Hle).
        exists (added ++ [EvInput (Ok line)] ++ more).
        rewrite Hm, <- !app_assoc. split; [reflexivity|].
        rewrite !count_calls_app, Hd, Hi.
        change (count_calls is_input_call [EvInput (Ok line)]) with 1.
        change (count_calls is_decision_call [EvInput (Ok line)]) with 0.
        lia.
    + apply IH in H. destruct H as (more & Hm & Hle).
      exists (added ++ more). rewrite Hm, <- app_assoc.
      split; [reflexivity|].
      rewrite !count_calls_app, Hd, Hi. lia.
Qed.

(** X20.  In a conversation that returns, the calls made are only added
    to the trace, and the console is read at most once per decision
    step: the reads never outnumber the structured decision calls. *)
Theorem console_reads_follow_decisions fuel initial_message tr s' tr' :
  run_conversation self fuel initial_message tr = Returned s' tr' ->
  exists added,
    tr' = tr ++ added
    /\ count_calls is_input_call added
       <= count_calls is_decision_call added.
Proof. unfold run_conversation. apply loop_call_counts. Qed.

End Coverage.


(* ================================================================== *)
(** ** Further properties: main.py *)

Section Main.

Variable agent : AgentWorkflow.

Lemma truthy_nonempty (s : string) :
  PyStr.truthy s = true <-> s <> ""%string.
Proof.
  destruct s as [|c rest]; simpl; split; intros H.
  - discriminate H.
  - exfalso. apply H. reflexivity.
  - discriminate.
  - reflexivity.
Qed.

Lemma conversation_start fuel initial_message tr s' tr' :
  run_conversation agent fuel initial_message tr = Returned s' tr' ->
  (exists added, tr' = tr ++ added)
  /\ conversation_complete s' = true
  /\ pending_action s' = None
  /\ current_query s' = Some initial_message
  /\ exists later,
       conversation_history s'
       = mkMessage user initial_message (now (services agent) tr) :: later.
Proof.
  unfold run_conversation. intros H.
  destruct (@loop_call_counts agent _ _ _ _ _ H) as (added & Ha & _).
  destruct (@loop_returns_complete agent _ _ _ _ _ H) as [Hdone _].
  destruct (@loop_only_appends agent _ _ _ _ _ H)
    as ([turns Hh] & _ & _ & Hq & Hp).
  split; [exists added; exact Ha|]. split; [exact Hdone|].
  split; [exact Hp|]. split; [exact Hq|].
  exists turns. exact Hh.
Qed.

Lemma main_loop_finals fuel conversation_fuel :
  forall tr finals result ending,
    main_loop agent fuel conversation_fuel tr finals = (result, ending) ->
    exists added,
      result = finals ++ added
      /\ Forall (started_on_typed_line agent conversation_fuel tr) added.
Proof.
  induction fuel as [|fuel IH]; intros tr finals result ending H;
    cbn [main_loop] in H.
  - inversion H; subst. exists []. rewrite app_nil_r.
    split; [reflexivity|constructor].
  - unfold call_input in H.
    destruct (console_input (services agent) tr) as [line|e|b] eqn:Ei.
    2:{ inversion H; subst. exists []. rewrite app_nil_r.
        split; [reflexivity|constructor]. }
    2:{ inversion H; subst. exists []. rewrite app_nil_r.
        split; [reflexivity|constructor]. }
    cbv zeta in H.
    destruct (is_exit_word (PyStr.lower (PyStr.strip line))) eqn:Ex.
    { inversion H; subst. exists []. rewrite app_nil_r.
      split; [reflexivity|constructor]. }
    assert (Hlater : forall tr2 more final_state,
               tr2 = tr ++ more ->
               started_on_typed_line agent conversation_fuel tr2 final_state ->
               started_on_typed_line agent conversation_fuel tr final_state).
    { intros tr2 more final_state Ht2
        (before & line' & tr_after & Hc & Hrest).
      subst tr2. exists (more ++ before), line', tr_after.
      rewrite <- !app_assoc in *. split; [exact Hc|exact Hrest]. }
    destruct (PyStr.truthy (PyStr.strip line)) eqn:Et.
    + destruct (run_conversation agent conversation_fuel (PyStr.strip line)
                  (tr ++ [EvInput (Ok line)]))
        as [final_state tr2|e tr2|b tr2|] eqn:Er.
      * apply IH in H. destruct H as (added & Hr & Hf).
        exists (final_state :: added). rewrite Hr, <- app_assoc.
        split; [reflexivity|].
        destruct (conversation_start _ _ _ Er)
          as ([more Hmore] & Hdone & Hp & Hq & Hh).
        constructor.
        -- exists [], line, tr2. rewrite app_nil_r. simpl.
           split; [exact Ei|]. split; [apply truthy_nonempty; exact Et|].
           split; [exact Ex|]. split; [exact Er|].
           split; [exact Hdone|]. split; [exact Hp|].
           split; [exact Hq|exact Hh].
        -- eapply Forall_impl; [|exact Hf].
           intros final_state' Hs.
           eapply Hlater; [|exact Hs].
           rewrite Hmore, <- app_assoc. reflexivity.
      * inversion H; subst. exists []. rewrite app_nil_r.
        split; [reflexivity|constructor].
      * inversion H; subst. exists []. rewrite app_nil_r.
        split; [reflexivity|constructor].
      * inversion H; subst. exists []. rewrite app_nil_r.
        split; [reflexivity|constructor].
    + apply IH in H. destruct H as (added & Hr & Hf).
      exists added. split; [exact Hr|].
      eapply Forall_impl; [|exact Hf].
      intros final_state' Hs. eapply Hlater; [|exact Hs]. reflexivity.
Qed.

(** X21.  Every final state [main] receives comes from a line the user
    typed at its prompt: the line, read from the console at some point
    after [main] was entered, is neither empty nor an exit word once
    stripped, and the final state is what [run_conversation] returned when
    started, right after that read, on the stripped line.  That state is
    complete, has no pending action, and has the stripped line as its
    query and as its first turn, a user turn.  So a line that is empty
    once stripped starts no conversation.  In the other direction, when
    the first line read is such a query and its conversation returns, the
    state it returns is the first that [main] receives. *)
Theorem main_summarises_finished_conversations fuel conversation_fuel tr
  finals ending :
  main agent fuel conversation_fuel tr = (finals, ending) ->
  Forall (started_on_typed_line agent conversation_fuel tr) finals
  /\ (forall line final_state tr_after,
        fuel <> 0 ->
        console_input (services agent) tr = Ok line ->
        PyStr.strip line <> ""%string ->
        is_exit_word (PyStr.lower (PyStr.strip line)) = false ->
        run_conversation agent conversation_fuel (PyStr.strip line)
          (tr ++ [EvInput (Ok line)])
        = Returned final_state tr_after ->
        exists rest, finals = final_state :: rest).
Proof.
  unfold main. intros H. split.
  - destruct (@main_loop_finals _ _ _ _ _ _ H) as (added & Hr & Hf).
    simpl in Hr. subst finals. exact Hf.
  - intros line final_state tr_after Hfuel Hc Hne Hx Hrun.
    destruct fuel as [|fuel']; [congruence|].
    cbn [main_loop] in H. unfold call_input in H.
    rewrite Hc in H. cbv zeta in H. rewrite Hx in H.
    apply truthy_nonempty in Hne. rewrite Hne, Hrun in H.
    destruct (@main_loop_finals _ _ _ _ _ _ H) as (added & Hr & _).
    exists added. exact Hr.
Qed.

Lemma main_loop_exit fuel conversation_fuel :
  forall tr finals result tr',
    main_loop agent fuel conversation_fuel tr finals = (result, Exited tr') ->
    exists tr0 line,
      tr' = tr0 ++ [EvInput (Ok line)]
      /\ is_exit_word (PyStr.lower (PyStr.strip line)) = true.
Proof.
  induction fuel as [|fuel IH]; intros tr finals result tr' H;
    cbn [main_loop] in H.
  - discriminate H.
  - unfold call_input in H.
    destruct (console_input (services agent) tr) as [line|e|b] eqn:Ei;
      try discriminate H.
    cbv zeta in H.
    destruct (is_exit_word (PyStr.lower (PyStr.strip line))) eqn:Ex.
    { inversion H; subst. eauto. }
    destruct (PyStr.truthy (PyStr.strip line)).
    + destruct (run_conversation agent conversation_fuel (PyStr.strip line) _)
        as [final_state tr2|e tr2|b tr2|]; try discriminate H.
      eapply IH. eassumption.
    + eapply IH. eassumption.
Qed.

(** X22.  [main] returns only on an exit word of the user: when it
    returns, the last call on the trace is a console read whose line,
    stripped and lower-cased, is "exit", "quit" or "bye". *)
Theorem main_returns_on_exit_word fuel conversation_fuel tr finals tr' :
  main agent fuel conversation_fuel tr = (finals, Exited tr') ->
  exists tr0 line,
    tr' = tr0 ++ [EvInput (Ok line)]
    /\ (PyStr.lower (PyStr.strip line) = "exit"%string
        \/ PyStr.lower (PyStr.strip line) = "quit"%string
        \/ PyStr.lower (PyStr.strip line) = "bye"%string).
Proof.
  unfold main. intros H.
  destruct (@main_loop_exit _ _ _ _ _ _ H) as (tr0 & line & Ht & Hx).
  exists tr0, line. split; [exact Ht|].
  unfold is_exit_word in Hx.
  apply orb_prop in Hx. destruct Hx as [Hx|Hx].
  - apply orb_prop in Hx. destruct Hx as [Hx|Hx];
      apply String.eqb_eq in Hx; auto.
  - apply String.eqb_eq in Hx. auto.
Qed.

End Main.

(* ================================================================== *)
(** ** The further properties on scripted worlds *)

(** A fresh state. *)
Lemma context_summary_blank_iff_witness :
  _build_context_summary Demo.empty_state = "No previous actions taken"
  /\ extracted_tools Demo.empty_state = [].
Proof.
  split.
  - apply (proj2 (context_summary_blank_iff Demo.empty_state)).
    repeat split; reflexivity.
  - apply (proj1 (context_summary_blank_iff Demo.empty_state)).
    reflexivity.
Defined.

(** Seven tools and six tools that share their first five. *)
Lemma context_summary_depends_on_witness :
  firstn 5 (extracted_tools Scenes.seven_tools)
  = firstn 5 (extracted_tools Scenes.six_tools)
  /\ _build_context_summary Scenes.seven_tools
     = _build_context_summary Scenes.six_tools.
Proof.
  split; [reflexivity|].
  apply (context_summary_depends_on Scenes.seven_tools Scenes.six_tools);
    reflexivity.
Defined.

(** A search whose search call fails on the network. *)
Lemma search_tool_raises_only_for_services_witness :
  exists tr0 q' n',
    snd (_tool_search_tools Demo.search_breaks "db" 3 [])
    = tr0 ++ [EvSearch q' n' (Raise (ExternalError "network"))].
Proof.
  destruct (@search_tool_raises_only_for_services Demo.search_breaks
              "db"%string 3%Z [] (ExternalError "network")
              (snd (_tool_search_tools Demo.search_breaks "db" 3 []))
              eq_refl)
    as [H|[H|H]].
  - exact H.
  - destruct H as (tr0 & q' & n' & Ht & He). discriminate He.
  - destruct H as (tr0 & url & Ht). vm_compute in Ht.
    destruct tr0 as [|e0 [|e1 tr0]]; discriminate Ht.
Defined.


(** One article of eleven characters. *)
Lemma search_tool_prompt_is_bounded_witness :
  exists all_content,
    extraction_messages Demo.extraction_breaks "db"
      ("A is a tool" ++ PyStr.nl ++ PyStr.nl)
    = extraction_messages Demo.extraction_breaks "db" all_content
    /\ String.length all_content <= 1502 * 1.
Proof.
  apply (@search_tool_prompt_is_bounded Demo.extraction_breaks "db"%string
           3%Z []
           (mkSearchData
              (Some [mkWebResult (Some "https://blog.example/db"%string)
                       None]))
           (fst (_tool_search_tools Demo.extraction_breaks "db" 3 []))
           (snd (_tool_search_tools Demo.extraction_breaks "db" 3 []))
           (removelast
              (snd (_tool_search_tools Demo.extraction_breaks "db" 3 [])))
           (extraction_messages Demo.extraction_breaks "db"
              ("A is a tool" ++ PyStr.nl ++ PyStr.nl)%string)
           (Raise (ExternalError "model"))
           eq_refl eq_refl eq_refl).
Defined.

(** "A" has a site and a page; the analysis call fails. *)
Lemma research_tool_record_witness :
  exists company,
    fst (_tool_research_company Demo.only_A_found "A" []) = Ok (Some company)
    /\ name company = "A"%string
    /\ competitors company = [].
Proof.
  eexists. split; [vm_compute; reflexivity|].
  match goal with
  | |- name ?c = _ /\ _ =>
      destruct (@research_tool_record Demo.only_A_found "A"%string [] c
                  (snd (_tool_research_company Demo.only_A_found "A" []))
                  eq_refl) as (Hn & _ & Hc & _)
  end.
  split; [exact Hn|exact Hc].
Defined.

Lemma research_tool_analysis_failure_witness :
  exists company,
    fst (_tool_research_company Demo.only_A_found "A" []) = Ok (Some company)
    /\ pricing_model company = Some "Unknown"%string
    /\ description company = "Analysis failed"%string.
Proof.
  destruct (@research_tool_analysis_failure Demo.only_A_found "A"%string []
              (fst (_tool_research_company Demo.only_A_found "A" []))
              (snd (_tool_research_company Demo.only_A_found "A" []))
              (removelast
                 (snd (_tool_research_company Demo.only_A_found "A" [])))
              [mkChat system_role "analyse";
               mkChat user_role "A: A is a tool"]
              (ExternalError "no analysis")
              (surjective_pairing _) eq_refl)
    as (company & Hr & _ & Hp & Hd & _).
  exists company. split; [exact Hr|]. split; [exact Hp|exact Hd].
Defined.

(** The search for "B" fails on the network. *)
Lemma research_tool_calls_witness :
  fst (_tool_research_company Demo.batch_breaks "B" [])
  = Raise (ExternalError "network")
  /\ exists r rest,
       snd (_tool_research_company Demo.batch_breaks "B" [])
       = [] ++ EvSearch "B official site" 1%Z r :: rest
       /\ ((r = Raise (ExternalError "network") /\ rest = [])
           \/ exists url,
                rest = [EvScrape url (Raise (ExternalError "network"))]).
Proof.
  split; [reflexivity|].
  destruct (research_tool_calls Demo.batch_breaks "B" [])
    as (r & rest & Ht & _ & He).
  exists r, rest. split; [exact Ht|].
  apply He. reflexivity.
Defined.

Lemma research_step_appends_requested_witness :
  exists extra,
    researched_companies
      (fst (agent_decision_step Demo.only_A_found Demo.empty_state []))
    = researched_companies Demo.empty_state ++ extra
    /\ subseq (map name extra) ["A"; "B"]%string.
Proof.
  destruct (@research_step_appends_requested Demo.only_A_found
              Demo.empty_state [] Demo.research_A_B
              (mkResearchCompanyCall ["A"; "B"]%string "compare the two")
              eq_refl eq_refl eq_refl)
    as (extra & Hr & Hs & _).
  exists extra. split; [exact Hr|exact Hs].
Defined.

(** One reply, one line of user text, then the end. *)
Lemma conversation_result_witness :
  exists s' tr',
    run_conversation Demo.short_chat 3 "hello" [] = Returned s' tr'
    /\ current_query s' = Some "hello"%string
    /\ pending_action s' = None.
Proof.
  eexists. eexists.
  match goal with
  | |- ?A /\ _ => assert (Hrun : A) by (vm_compute; reflexivity)
  end.
  split; [exact Hrun|].
  destruct (conversation_result Demo.short_chat 3 "hello" [] Hrun)
    as (_ & Hq & Hp & _).
  split; [exact Hq|exact Hp].
Defined.

Lemma malformed_decision_gets_apology_witness :
  well_formed (Demo.decide end_) = false
  /\ map content
       (conversation_history
          (fst (agent_decision_step Demo.ends_without_call
                  Demo.empty_state [])))
     = ["I hit an internal error. Please rephrase."]%string.
Proof.
  split; [reflexivity|].
  rewrite (proj1 (@malformed_decision_gets_apology Demo.ends_without_call
                    Demo.empty_state [] (Demo.decide end_) eq_refl eq_refl)).
  reflexivity.
Defined.

Lemma end_decision_returns_at_once_witness :
  conversation_complete Demo.three_turns = false
  /\ exists tr',
       conversation_loop Demo.ends_now 9 Demo.three_turns []
       = Returned (set_complete true Demo.three_turns) tr'.
Proof.
  split; [reflexivity|]. eexists.
  apply (@end_decision_returns_at_once Demo.ends_now 8 Demo.three_turns []
           Demo.finish eq_refl eq_refl eq_refl).
  discriminate.
Defined.

(** The model replies and the console is closed; and an interrupt during
    the recommendation call. *)
Lemma conversation_ends_in_the_failing_call_witness :
  (exists tr',
      run_conversation Scenes.console_closed 4 "hello" []
      = Escaped (ExternalError "EOF") tr'
      /\ exists tr0, tr' = tr0 ++ [EvInput (Raise (ExternalError "EOF"))])
  /\ (exists tr',
        conversation_loop Scenes.interrupted_recommendation 4
          Scenes.one_researched []
        = Interrupted KeyboardInterrupt tr'
        /\ exists tr0 call,
             tr' = tr0 ++ [call]
             /\ call_interrupt call = Some KeyboardInterrupt).
Proof.
  split.
  - eexists.
    match goal with
    | |- ?A /\ _ => assert (Hrun : A) by (vm_compute; reflexivity)
    end.
    split; [exact Hrun|].
    exact (proj1 (conversation_ends_in_the_failing_call
                    Scenes.console_closed 4 _ _) _ _ Hrun).
  - eexists.
    match goal with
    | |- ?A /\ _ => assert (Hrun : A) by (vm_compute; reflexivity)
    end.
    split; [exact Hrun|].
    exact (proj2 (conversation_ends_in_the_failing_call
                    Scenes.interrupted_recommendation 4 _ _) _ _ Hrun).
Defined.

Lemma analyze_decision_with_research_witness :
  researched_companies Scenes.one_researched <> []
  /\ analysis
       (fst (agent_decision_step Scenes.recommends Scenes.one_researched []))
     = Some "Use A."%string
  /\ map content
       (conversation_history
          (fst (agent_decision_step Scenes.recommends
                  Scenes.one_researched [])))
     = ["compare"; "Analysis complete"; "Use A."]%string
  /\ analysis
       (fst (agent_decision_step Scenes.no_recommendation
               Scenes.one_researched []))
     = None
  /\ map content
       (conversation_history
          (fst (agent_decision_step Scenes.no_recommendation
                  Scenes.one_researched [])))
     = ["compare"; "Analysis complete";
        "I hit an internal error. Please rephrase."]%string
  /\ step_interrupted Scenes.interrupted_recommendation
       Scenes.one_researched []
     = Some KeyboardInterrupt.
Proof.
  assert (Hne : researched_companies Scenes.one_researched <> [])
    by discriminate.
  split; [exact Hne|].
  rewrite (proj1 (@analyze_decision_with_research Scenes.recommends
                    Scenes.one_researched [] Demo.analyze Hne eq_refl eq_refl
                    ltac:(discriminate))).
  rewrite (proj1 (@analyze_decision_with_research Scenes.no_recommendation
                    Scenes.one_researched [] Demo.analyze Hne eq_refl eq_refl
                    ltac:(discriminate))).
  rewrite (proj2 (@analyze_decision_with_research
                    Scenes.interrupted_recommendation
                    Scenes.one_researched [] Demo.analyze Hne eq_refl eq_refl
                    ltac:(discriminate))).
  repeat split; reflexivity.
Defined.

Lemma search_step_effect_witness :
  extracted_tools
    (fst (agent_decision_step Scenes.finds_six Scenes.seven_tools []))
  = ["a"; "b"; "c"; "d"; "e"; "f"; "g";
     "Supabase"; "PlanetScale"; "Railway"; "Appwrite"; "Nhost"]%string.
Proof.
  destruct (@search_step_effect Scenes.finds_six Scenes.seven_tools []
              Demo.search_db (mkSearchToolsCall "db" 3 "find candidates")
              ["Supabase"; "PlanetScale"; "Railway"; "Appwrite"; "Nhost"]%string
              (snd (_tool_search_tools Scenes.finds_six "db" 3
                      [EvDecision
                         (_build_llm_messages Scenes.finds_six
                            Scenes.seven_tools)
                         (Ok Demo.search_db)]))
              eq_refl eq_refl eq_refl eq_refl) as [Hs _].
  rewrite Hs. reflexivity.
Defined.

Lemma console_reads_follow_decisions_witness :
  exists s' tr' added,
    run_conversation Demo.short_chat 3 "hello" [] = Returned s' tr'
    /\ tr' = [] ++ added
    /\ count_calls is_input_call added <= count_calls is_decision_call added.
Proof.
  assert (Hrun : exists s' tr',
             run_conversation Demo.short_chat 3 "hello" [] = Returned s' tr')
    by (eexists; eexists; vm_compute; reflexivity).
  destruct Hrun as (s' & tr' & Hrun).
  destruct (console_reads_follow_decisions Demo.short_chat 3 "hello" []
              Hrun) as (added & Ha & Hle).
  exists s', tr', added. split; [exact Hrun|]. split; [exact Ha|exact Hle].
Defined.

(** Two questions with an empty line between them, then "Exit". *)
Lemma main_summarises_finished_conversations_witness :
  exists finals ending,
    main Scenes.two_questions 6 3 [] = (finals, ending)
    /\ map current_query finals = [Some "a db"; Some "a queue"]%string
    /\ Forall (started_on_typed_line Scenes.two_questions 3 []) finals
    /\ exists first_state rest, finals = first_state :: rest.
Proof.
  eexists. eexists.
  match goal with
  | |- ?A /\ _ => assert (Hrun : A) by (vm_compute; reflexivity)
  end.
  split; [exact Hrun|]. split; [reflexivity|].
  destruct (main_summarises_finished_conversations
              Scenes.two_questions 6 3 [] Hrun) as [Hall Hfirst].
  split; [exact Hall|].
  eexists.
  eapply (Hfirst " a db "%string).
  - discriminate.
  - reflexivity.
  - discriminate.
  - reflexivity.
  - vm_compute. reflexivity.
Defined.

Lemma main_returns_on_exit_word_witness :
  (exists finals tr' tr0 line,
      main Scenes.two_questions 6 3 [] = (finals, Exited tr')
      /\ tr' = tr0 ++ [EvInput (Ok line)]
      /\ (PyStr.lower (PyStr.strip line) = "exit"%string
          \/ PyStr.lower (PyStr.strip line) = "quit"%string
          \/ PyStr.lower (PyStr.strip line) = "bye"%string))
  /\ (exists tr0 line,
        main Scenes.leaves_at_once 1 3 []
        = ([], Exited [EvInput (Ok Scenes.padded_exit)])
        /\ [EvInput (Ok Scenes.padded_exit)] = tr0 ++ [EvInput (Ok line)]
        /\ (PyStr.lower (PyStr.strip line) = "exit"%string
            \/ PyStr.lower (PyStr.strip line) = "quit"%string
            \/ PyStr.lower (PyStr.strip line) = "bye"%string)).
Proof.
  split.
  - assert (Hrun : exists finals tr',
               main Scenes.two_questions 6 3 [] = (finals, Exited tr'))
      by (eexists; eexists; vm_compute; reflexivity).
    destruct Hrun as (finals & tr' & Hrun).
    destruct (main_returns_on_exit_word Scenes.two_questions 6 3 [] Hrun)
      as (tr0 & line & Ht & Hx).
    exists finals, tr', tr0, line.
    split; [exact Hrun|]. split; [exact Ht|exact Hx].
  - assert (Hrun : main Scenes.leaves_at_once 1 3 []
                   = ([], Exited [EvInput (Ok Scenes.padded_exit)]))
      by (vm_compute; reflexivity).
    destruct (main_returns_on_exit_word Scenes.leaves_at_once 1 3 [] Hrun)
      as (tr0 & line & Ht & Hx).
    exists tr0, line.
    split; [exact Hrun|]. split; [exact Ht|exact Hx].
Defined.
